(** * Smart Compose model (src/smart_compose/train/model.py)

    A shallow embedding of [SmartComposeModel]: its constructor, the two
    closures it hands to the prefix-aware beam searcher
    ([get_logits_and_cache], [get_initial_logits_and_cache_fn]), the
    inference entry points ([call], [prefix_aware_beam_search]) and the
    training entry point ([get_training_probs_and_labels]).

    Tensors are nested lists (outermost dimension first), token ids are [Z],
    floats are idealised as [Q], Python dictionaries are [gmap]s, and a Python
    exception is the [Raise] branch of [result].

    The two closures run inside [prefix_aware_beam_search], a [tf.function]:
    the tensor operations are modelled as they behave there. *)

From Stdlib Require Import ZArith QArith List Lia.
From stdpp Require Import base option list strings gmap.

Local Open Scope Z_scope.
Local Open Scope list_scope.

(** ** Exceptions *)

Inductive exn : Type :=
| KeyError
| ValueError
| InvalidArgumentError.

Inductive result (A : Type) : Type :=
| Ok (a : A)
| Raise (e : exn).
Arguments Ok {A} a.
Arguments Raise {A} e.

#[global] Instance result_ret : MRet result := fun A a => Ok a.
#[global] Instance result_bind : MBind result := fun A B f m =>
  match m with
  | Ok a => f a
  | Raise e => Raise e
  end.
#[global] Instance result_fmap : FMap result := fun A B f m =>
  match m with
  | Ok a => Ok (f a)
  | Raise e => Raise e
  end.

Definition is_Raise {A} (r : result A) : Prop :=
  match r with
  | Ok _ => False
  | Raise _ => True
  end.

Definition is_Ok {A} (r : result A) : Prop :=
  match r with
  | Ok _ => True
  | Raise _ => False
  end.

(** [d[k]] on a Python dict. *)
Definition getitem `{Countable K} {V} (d : gmap K V) (k : K) : result V :=
  match d !! k with
  | Some v => Ok v
  | None => Raise KeyError
  end.

(** Runs a fallible function over a list, left to right. *)
Fixpoint traverse {A B} (f : A -> result B) (l : list A) : result (list B) :=
  match l with
  | [] => Ok []
  | x :: l' => y ← f x; ys ← traverse f l'; Ok (y :: ys)
  end.

(** ** Tensors *)

(** A float vector (innermost dimension of a float tensor). *)
Abbreviation Vec := (list Q).
(** [batch, units] float tensor. *)
Abbreviation Tensor2 := (list (list Q)).
(** [batch, time, units] float tensor. *)
Abbreviation Tensor3 := (list (list (list Q))).
(** [batch, time] integer tensor. *)
Abbreviation Ids := (list (list Z)).

(** A nested list is a rank-2 tensor when its rows have one length. *)
Definition rectangular {A} (t : list (list A)) : bool :=
  match t with
  | [] => true
  | row :: t' => forallb (fun row' => length row' =? length row)%nat t'
  end.

(** [t[:, i]] on a rank-2 tensor. An index outside the second dimension is a
    [tf.errors.InvalidArgumentError] of the strided slice. A nested list whose
    rows differ in length is no tensor: converting it is a [ValueError]. *)
Definition column {A} (i : nat) (t : list (list A)) : result (list A) :=
  if rectangular t then
    traverse (fun row => match row !! i with
                         | Some x => Ok x
                         | None => Raise InvalidArgumentError
                         end) t
  else Raise ValueError.

(** The batch size two tensors broadcast to: the sizes agree, or one of them
    is 1; other sizes are incompatible. *)
Definition broadcast (n m : nat) : result nat :=
  if (n =? m)%nat then Ok n
  else if (n =? 1)%nat then Ok m
  else if (m =? 1)%nat then Ok n
  else Raise InvalidArgumentError.

(** A tensor of batch size 1 broadcast to batch size [B]: its only row is
    repeated; a tensor of another batch size is taken as it is. *)
Definition broadcast_to {A} (B : nat) (t : list A) : list A :=
  match t with
  | [x] => replicate B x
  | _ => t
  end.

(** [tf.expand_dims(t, axis=0)]. *)
Definition expand_dims0 {A} (t : A) : list A := [t].

(** [tf.squeeze(t, axis=0)]: the first dimension must have size one. *)
Definition squeeze0 {A} (t : list A) : result A :=
  match t with
  | [x] => Ok x
  | _ => Raise InvalidArgumentError
  end.

(** [t[:, :-1]]: every row without its last time step. *)
Definition drop_last_step {A} (t : list (list A)) : list (list A) :=
  map (@removelast A) t.

(** [t[:, 1:]]: every row without its first time step. *)
Definition drop_first_step {A} (t : list (list A)) : list (list A) :=
  map (@tail A) t.

(** 32-bit two's complement wrap-around of [tf.int32] arithmetic. *)
Definition wrap_int32 (z : Z) : Z :=
  (z + 2 ^ 31) mod 2 ^ 32 - 2 ^ 31.

(** [t - 1] on an int32 tensor of rank 1. *)
Definition sub_one_int32 (t : list Z) : list Z :=
  map (fun l => wrap_int32 (l - 1)) t.

(** ** Feature keys (smart_compose.utils.parsing_utils) *)

(** The keys of [InternalFtrType] that model.py reads or writes. *)
Inductive InternalFtrType : Type :=
| SENTENCES | NUM_CLS | NUM_SEP | MIN_LEN | MAX_LEN
| EMBEDDED | LENGTH | TOKENIZED_IDS
| LABEL | LOGIT | RNN_OUTPUT | SAMPLE_ID.

#[global] Instance InternalFtrType_eq_dec : EqDecision InternalFtrType.
Proof. solve_decision. Defined.

Definition InternalFtrType_to_nat (k : InternalFtrType) : nat :=
  match k with
  | SENTENCES => 0 | NUM_CLS => 1 | NUM_SEP => 2 | MIN_LEN => 3 | MAX_LEN => 4
  | EMBEDDED => 5 | LENGTH => 6 | TOKENIZED_IDS => 7
  | LABEL => 8 | LOGIT => 9 | RNN_OUTPUT => 10 | SAMPLE_ID => 11
  end%nat.

Definition InternalFtrType_of_nat (n : nat) : option InternalFtrType :=
  match n with
  | 0 => Some SENTENCES | 1 => Some NUM_CLS | 2 => Some NUM_SEP
  | 3 => Some MIN_LEN | 4 => Some MAX_LEN | 5 => Some EMBEDDED
  | 6 => Some LENGTH | 7 => Some TOKENIZED_IDS | 8 => Some LABEL
  | 9 => Some LOGIT | 10 => Some RNN_OUTPUT | 11 => Some SAMPLE_ID
  | _ => None
  end%nat.

#[global] Instance InternalFtrType_countable : Countable InternalFtrType.
Proof.
  apply (inj_countable InternalFtrType_to_nat InternalFtrType_of_nat).
  intros []; reflexivity.
Defined.

(** What a feature dictionary holds: Python ints and tensors of the ranks and
    dtypes model.py handles. *)
Inductive value : Type :=
| VInt (n : Z)
| VString1 (t : list string)
| VInt1 (t : list Z)
| VInt2 (t : Ids)
| VFloat3 (t : Tensor3).

Abbreviation FtrDict := (gmap InternalFtrType value).

Definition as_int1 (v : value) : result (list Z) :=
  match v with VInt1 t => Ok t | _ => Raise InvalidArgumentError end.
Definition as_int2 (v : value) : result Ids :=
  match v with VInt2 t => Ok t | _ => Raise InvalidArgumentError end.
Definition as_float3 (v : value) : result Tensor3 :=
  match v with VFloat3 t => Ok t | _ => Raise InvalidArgumentError end.

(** The decode cache: a dictionary from a key to the recurrent state, a pair
    [memory, carry] of [batch * beam, units] tensors. *)
Abbreviation Cache := (gmap string (Tensor2 * Tensor2)).

(** The arguments [SmartComposeModel.__init__] passes to
    [beam_search.PrefixAwareBeamSearcher], in the order of the call; the
    searcher keeps them. *)
Record PrefixAwareBeamSearcher (Embedding : Type) : Type := {
  bs_vocab_size : Z;
  bs_beam_width : Z;
  bs_length_norm_power : Q;
  bs_max_decode_length : Z;
  bs_sep_id : Z;
  bs_pad_id : Z;
  bs_min_seq_prob : Q;
  bs_embedding : Embedding;
  bs_min_len : Z;
  bs_max_len : Z;
  bs_num_cls : Z;
  bs_num_sep : Z
}.
Arguments bs_vocab_size {_} _.
Arguments bs_beam_width {_} _.
Arguments bs_length_norm_power {_} _.
Arguments bs_max_decode_length {_} _.
Arguments bs_sep_id {_} _.
Arguments bs_pad_id {_} _.
Arguments bs_min_seq_prob {_} _.
Arguments bs_embedding {_} _.
Arguments bs_min_len {_} _.
Arguments bs_max_len {_} _.
Arguments bs_num_cls {_} _.
Arguments bs_num_sep {_} _.

(** ** The collaborators of model.py

    Everything model.py imports and does not define: the embedding layer
    (smart_compose.layers.embedding_layer), the Keras cell and dense layer,
    the tensorflow_addons decoder, the beam searcher's constructor check and
    its call, and [get_sorted_dict]. They are parameters of the development.
    A recurrent cell acts on each example of a batch on its own, so the cell
    and the dense layer are given per example. *)
Class Collaborators : Type := {
  EmbeddingParam : Type;
  Embedding : Type;
  LSTMCell : Type;
  Dense : Type;
  BasicDecoder : Type;
  SearchResult : Type;
  (** [InputFtrType.TARGET_COLUMN_NAME] *)
  TARGET_COLUMN_NAME : string;
  (** [embedding_layer.create_embedding_layer] *)
  create_embedding_layer : EmbeddingParam -> string -> result Embedding;
  vocab_size : Embedding -> Z;
  num_units : Embedding -> Z;
  sep_id : Embedding -> Z;
  pad_id : Embedding -> Z;
  (** [embedding.embedding_lookup] on one token id *)
  embedding_lookup1 : Embedding -> Z -> Vec;
  (** [embedding(...)], the layer called on a feature dictionary *)
  embedding_call : Embedding -> FtrDict -> result FtrDict;
  (** [tf.keras.layers.LSTMCell(units)] *)
  LSTMCell_new : Z -> LSTMCell;
  (** the zero [memory, carry] state of one example *)
  lstm_zero_state : LSTMCell -> Vec * Vec;
  (** one step of the cell on one example: the output and the new
      [memory, carry] state *)
  lstm_step : LSTMCell -> Vec -> Vec * Vec -> Vec * (Vec * Vec);
  (** [tf.keras.layers.Dense(units)] and its action on one vector *)
  Dense_new : Z -> Dense;
  dense_apply : Dense -> Vec -> Vec;
  (** [tfa.seq2seq.BasicDecoder(cell, sampler=TrainingSampler(), output_layer)]
      and its call, which yields [rnn_output] and [sample_id] *)
  BasicDecoder_new : LSTMCell -> Dense -> BasicDecoder;
  decoder_call : BasicDecoder -> Tensor3 -> Tensor2 * Tensor2 -> list Z ->
                 result (Tensor3 * Ids);
  (** what the constructor of [PrefixAwareBeamSearcher] checks *)
  searcher_check : PrefixAwareBeamSearcher Embedding -> result unit;
  (** the searcher called on the input text and the two closures *)
  searcher_call : PrefixAwareBeamSearcher Embedding -> list string ->
                  (Ids -> nat -> Cache -> result (Tensor2 * Cache)) ->
                  (Ids -> result (Tensor2 * Cache)) -> result SearchResult;
  (** [layer_utils.get_sorted_dict] returns the entries it is given *)
  get_sorted_dict : FtrDict -> FtrDict;
  get_sorted_dict_lookup : forall d k, get_sorted_dict d !! k = d !! k
}.

(** Modelled from the spec: [layer_utils.tile_batch], whose source is missing.
    Spec 4.1: the beams are seeded with [beamWidth] identical copies of the
    single initial hidden state (tiling). Every example of the batch is
    repeated [multiplier] times, the copies next to each other. *)
Definition tile_batch {A} (t : list A) (multiplier : Z) : list A :=
  flat_map (fun row => replicate (Z.to_nat multiplier) row) t.

Module Model.
Section WithCollaborators.
Context `{C : Collaborators}.

(** The attributes [__init__] sets on [self]. *)
Record SmartComposeModel : Type := {
  feature_type_2_name : gmap string string;
  _training_min_len : Z;
  _training_max_len : Z;
  _inference_min_len : Z;
  _inference_max_len : Z;
  _beam_width : Z;
  _max_decode_length : Z;
  _length_norm_power : Q;
  _min_seq_prob : Q;
  num_cls_training : Z;
  num_sep_training : Z;
  num_cls_inference : Z;
  num_sep_inference : Z;
  embedding : Embedding;
  _vocab_size : Z;
  _num_units : Z;
  _sep_id : Z;
  _pad_id : Z;
  cell : LSTMCell;
  projection_layer : Dense;
  decoder : BasicDecoder;
  prefix_aware_beam_searcher : PrefixAwareBeamSearcher Embedding
}.

(** [PrefixAwareBeamSearcher(...)]: the constructor checks its arguments and
    keeps them. *)
Definition PrefixAwareBeamSearcher_new (args : PrefixAwareBeamSearcher Embedding)
  : result (PrefixAwareBeamSearcher Embedding) :=
  _ ← searcher_check args; Ok args.

(** [SmartComposeModel.__init__] (model.py, lines 11-67). *)
Definition __init__ (embedding_layer_param : EmbeddingParam)
    (embedding_hub_url : string) (min_len max_len beam_width max_decode_length : Z)
    (feature_type_2_name : gmap string string) (min_seq_prob length_norm_power : Q)
  : result SmartComposeModel :=
  let training_min_len := min_len in
  let training_max_len := max_len in
  let inference_min_len := 1 in
  let inference_max_len := max_len in
  let num_cls_training := 1 in
  let num_sep_training := 1 in
  let num_cls_inference := 1 in
  let num_sep_inference := 0 in
  embedding ← create_embedding_layer embedding_layer_param embedding_hub_url;
  let vocab := vocab_size embedding in
  let units := num_units embedding in
  let sep := sep_id embedding in
  let pad := pad_id embedding in
  let cell := LSTMCell_new units in
  let projection_layer := Dense_new vocab in
  let decoder := BasicDecoder_new cell projection_layer in
  searcher ← PrefixAwareBeamSearcher_new
    {| bs_vocab_size := vocab;
       bs_beam_width := beam_width;
       bs_length_norm_power := length_norm_power;
       bs_max_decode_length := max_decode_length;
       bs_sep_id := sep;
       bs_pad_id := pad;
       bs_min_seq_prob := min_seq_prob;
       bs_embedding := embedding;
       bs_min_len := inference_min_len;
       bs_max_len := inference_max_len;
       bs_num_cls := num_cls_inference;
       bs_num_sep := num_sep_inference |};
  Ok {| feature_type_2_name := feature_type_2_name;
        _training_min_len := training_min_len;
        _training_max_len := training_max_len;
        _inference_min_len := inference_min_len;
        _inference_max_len := inference_max_len;
        _beam_width := beam_width;
        _max_decode_length := max_decode_length;
        _length_norm_power := length_norm_power;
        _min_seq_prob := min_seq_prob;
        num_cls_training := num_cls_training;
        num_sep_training := num_sep_training;
        num_cls_inference := num_cls_inference;
        num_sep_inference := num_sep_inference;
        embedding := embedding;
        _vocab_size := vocab;
        _num_units := units;
        _sep_id := sep;
        _pad_id := pad;
        cell := cell;
        projection_layer := projection_layer;
        decoder := decoder;
        prefix_aware_beam_searcher := searcher |}.

(** [embedding.embedding_lookup] on a tensor of token ids of rank 2. *)
Definition embedding_lookup (e : Embedding) (ids : Ids) : Tensor3 :=
  map (map (embedding_lookup1 e)) ids.

(** [_get_embedding_for_single_token] (lines 160-168). *)
Definition _get_embedding_for_single_token (self : SmartComposeModel)
    (tokens : list Z) : result Tensor2 :=
  let tokens := expand_dims0 tokens in
  let embeddings := embedding_lookup (embedding self) tokens in
  squeeze0 embeddings.

(** One step of the cell on every example of a batch, for three tensors of
    one batch size. *)
Fixpoint cell_rows (c : LSTMCell) (inputs memory carry : Tensor2)
  : result (Tensor2 * (Tensor2 * Tensor2)) :=
  match inputs, memory, carry with
  | [], [], [] => Ok ([], ([], []))
  | x :: inputs', h :: memory', cr :: carry' =>
      let '(out, (h', cr')) := lstm_step c x (h, cr) in
      '(outs, (hs, crs)) ← cell_rows c inputs' memory' carry';
      Ok (out :: outs, (h' :: hs, cr' :: crs))
  | _, _, _ => Raise InvalidArgumentError
  end.

(** [cell(inputs, states)]: one step of the Keras cell on a batch. The cell
    adds the projections of the inputs and of the memory and then combines the
    gates with the carry, element by element, so the three batch dimensions
    are broadcast: a tensor of batch size 1 is used for every example of the
    larger batch, and the output and both new states have the common batch
    size. Batch sizes that do not broadcast are an error. *)
Definition cell_call (c : LSTMCell) (inputs memory carry : Tensor2)
  : result (Tensor2 * (Tensor2 * Tensor2)) :=
  B1 ← broadcast (length inputs) (length memory);
  B ← broadcast B1 (length carry);
  cell_rows c (broadcast_to B inputs) (broadcast_to B memory)
    (broadcast_to B carry).

(** [get_logits_and_cache] (lines 72-85). *)
Definition get_logits_and_cache (self : SmartComposeModel)
    (ids : Ids) (i : nat) (cache : Cache) : result (Tensor2 * Cache) :=
  tokens ← column i ids;
  embeddings ← _get_embedding_for_single_token self tokens;
  state ← getitem cache "last_state";
  '(cell_output, last_state) ← cell_call (cell self) embeddings state.1 state.2;
  let logits := map (dense_apply (projection_layer self)) cell_output in
  let cache := <["last_state" := last_state]> cache in
  Ok (logits, cache).

(** The cache is a dictionary object: [cache['last_state'] = last_state]
    updates the caller's dictionary in place and the function returns the same
    object. [get_logits_and_cache_obj] is the call on a reference into a heap
    of dictionaries; an exception leaves the heap as it was. *)
Definition get_logits_and_cache_obj (self : SmartComposeModel)
    (ids : Ids) (i : nat) (cache : positive) (heap : gmap positive Cache)
  : result (Tensor2 * positive * gmap positive Cache) :=
  d ← getitem heap cache;
  '(logits, d') ← get_logits_and_cache self ids i d;
  Ok (logits, cache, <[cache := d']> heap).

(** [tf.keras.layers.RNN(cell, return_state=True)] on one example: the cell is
    folded over the time steps from the zero state; the result is the last
    output and the final [memory, carry] state. Inside a [tf.function] the
    layer is a loop over the time steps that starts from a zero output and the
    zero state: without a time step these are what it returns. *)
Definition rnn_example (c : LSTMCell) (steps : list Vec) : Vec * (Vec * Vec) :=
  match steps with
  | [] => ((lstm_zero_state c).1, lstm_zero_state c)
  | _ => fold_left (fun acc x => lstm_step c x acc.2) steps
           ([], lstm_zero_state c)
  end.

(** The layer on a batch: [rnn_output, last_memory_state, last_carry_state]. *)
Definition RNN (c : LSTMCell) (embedded : Tensor3) : Tensor2 * Tensor2 * Tensor2 :=
  let finals := map (rnn_example c) embedded in
  (map fst finals, map (fun f => f.2.1) finals, map (fun f => f.2.2) finals).

(** The output and the [memory, carry] state after the cell has read the
    whole prefix [row] from the zero state (what [RNN] computes for one
    example). *)
Definition prefix_encoding (self : SmartComposeModel) (row : list Z)
  : Vec * (Vec * Vec) :=
  fold_left (fun acc x => lstm_step (cell self) x acc.2)
    (map (embedding_lookup1 (embedding self)) row)
    ([], lstm_zero_state (cell self)).

(** [get_initial_logits_and_cache_fn] (lines 87-101). *)
Definition get_initial_logits_and_cache_fn (self : SmartComposeModel)
    (tokenized_ids : Ids) : result (Tensor2 * Cache) :=
  let embedded_outputs := embedding_lookup (embedding self) tokenized_ids in
  let '(rnn_output, last_memory_state, last_carry_state) :=
    RNN (cell self) embedded_outputs in
  let cache : Cache :=
    {[ "last_state" := (tile_batch last_memory_state (_beam_width self),
                        tile_batch last_carry_state (_beam_width self)) ]} in
  let init_cache := cache in
  let init_logits := map (dense_apply (projection_layer self)) rnn_output in
  let init_logits := tile_batch init_logits (_beam_width self) in
  Ok (init_logits, init_cache).

(** [prefix_aware_beam_search] (lines 103-116). *)
Definition prefix_aware_beam_search (self : SmartComposeModel)
    (inputs : gmap string (list string)) : result SearchResult :=
  name ← getitem (feature_type_2_name self) TARGET_COLUMN_NAME;
  inputs ← getitem inputs name;
  searcher_call (prefix_aware_beam_searcher self) inputs
    (get_logits_and_cache self) (get_initial_logits_and_cache_fn self).

(** [call] (lines 69-70); [mask] is [None] or a tensor. *)
Definition call (self : SmartComposeModel) (inputs : gmap string (list string))
    (training : bool) (mask : option (list bool)) : result SearchResult :=
  prefix_aware_beam_search self inputs.

(** The dictionary [_get_embedding_outputs_for_training] builds (lines 153-157). *)
Definition training_request (self : SmartComposeModel) (sentences : list string)
  : FtrDict :=
  <[MAX_LEN := VInt (_training_max_len self)]>
  (<[MIN_LEN := VInt (_training_min_len self)]>
  (<[NUM_SEP := VInt (num_sep_training self)]>
  (<[NUM_CLS := VInt (num_cls_training self)]>
  (<[SENTENCES := VString1 sentences]> ∅)))).

(** [_get_embedding_outputs_for_training] (lines 151-158). *)
Definition _get_embedding_outputs_for_training (self : SmartComposeModel)
    (sentences : list string) : result FtrDict :=
  embedding_call (embedding self) (get_sorted_dict (training_request self sentences)).

(** [cell.get_initial_state(embedded)]: the zero state of every example. *)
Definition get_initial_state (c : LSTMCell) (embedded : Tensor3) : Tensor2 * Tensor2 :=
  (map (fun _ => (lstm_zero_state c).1) embedded,
   map (fun _ => (lstm_zero_state c).2) embedded).

(** [get_training_probs_and_labels] (lines 118-149). *)
Definition get_training_probs_and_labels (self : SmartComposeModel)
    (inputs : gmap string (list string)) : result FtrDict :=
  name ← getitem (feature_type_2_name self) TARGET_COLUMN_NAME;
  inputs ← getitem inputs name;
  embedded_outputs ← _get_embedding_outputs_for_training self inputs;
  embedded ← getitem embedded_outputs EMBEDDED ≫= as_float3;
  let initial_state := get_initial_state (cell self) embedded in
  sequence_lengths ← getitem embedded_outputs LENGTH ≫= as_int1;
  '(rnn_output, sample_id) ←
    decoder_call (decoder self) embedded initial_state sequence_lengths;
  let logits := drop_last_step rnn_output in
  tokenized_ids ← getitem embedded_outputs TOKENIZED_IDS ≫= as_int2;
  let labels := drop_first_step tokenized_ids in
  Ok (get_sorted_dict
        (<[SAMPLE_ID := VInt2 sample_id]>
        (<[RNN_OUTPUT := VFloat3 rnn_output]>
        (<[LENGTH := VInt1 (sub_one_int32 sequence_lengths)]>
        (<[LOGIT := VFloat3 logits]>
        (<[LABEL := VInt2 labels]> ∅)))))).

End WithCollaborators.
End Model.

(** ** The factory function *)

Module ModelFactory.
Section WithCollaborators.
Context `{C : Collaborators}.
(** [tf.keras.Input(shape=[], dtype=tf.string)]: the symbolic string tensor
    the model is called on once to build it. *)
Variable keras_Input : list string.

(** [create_smart_compose_model] (model.py, lines 171-192): the input
    dictionary is built first, then the model is constructed and called once
    on it; the result of that call is dropped. *)
Definition create_smart_compose_model (embedding_layer_param : EmbeddingParam)
    (embedding_hub_url : string) (min_len max_len beam_width max_decode_length : Z)
    (feature_type_2_name : gmap string string) (min_seq_prob length_norm_power : Q)
  : result Model.SmartComposeModel :=
  name ← getitem feature_type_2_name TARGET_COLUMN_NAME;
  let inputs : gmap string (list string) := {[ name := keras_Input ]} in
  model ← Model.__init__ embedding_layer_param embedding_hub_url min_len max_len
             beam_width max_decode_length feature_type_2_name min_seq_prob
             length_norm_power;
  _ ← Model.call model inputs false None;
  Ok model.

End WithCollaborators.
End ModelFactory.

(** ** States that encode token sequences *)

Module Encoding.
Section WithCollaborators.
Context `{C : Collaborators}.

(** Row [j] of the [memory, carry] state [st] is the state the cell reaches
    from the zero state after reading the token sequence [seqs !! j]. *)
Definition encodes (self : Model.SmartComposeModel) (seqs : list (list Z))
    (st : Tensor2 * Tensor2) : Prop :=
  length st.1 = length seqs /\ length st.2 = length seqs /\
  forall j s, seqs !! j = Some s ->
    st.1 !! j = Some (Model.prefix_encoding self s).2.1 /\
    st.2 !! j = Some (Model.prefix_encoding self s).2.2.

End WithCollaborators.
End Encoding.

(** ** The constructor check of the beam searcher *)

(** Modelled from the spec: the argument check in the constructor of
    [beam_search.PrefixAwareBeamSearcher], whose source is missing. Spec 6:
    configuration inputs, all validated at construction: [vocabSize > 0],
    [beamWidth > 0], [lengthNormPower >= 0], [maxDecodeLength > 0],
    [minSeqProb in [0, 1]], [separatorId]/[padId] valid vocabulary indices,
    [minLen <= maxLen]. *)
Definition valid_config {E} (a : PrefixAwareBeamSearcher E) : bool :=
  (0 <? bs_vocab_size a)
  && (0 <? bs_beam_width a)
  && Qle_bool 0 (bs_length_norm_power a)
  && (0 <? bs_max_decode_length a)
  && Qle_bool 0 (bs_min_seq_prob a) && Qle_bool (bs_min_seq_prob a) 1
  && (0 <=? bs_sep_id a) && (bs_sep_id a <? bs_vocab_size a)
  && (0 <=? bs_pad_id a) && (bs_pad_id a <? bs_vocab_size a)
  && (bs_min_len a <=? bs_max_len a).

(** Modelled from the spec: an invalid configuration fails fast at
    construction (spec 7). *)
Definition spec_searcher_check {E} (a : PrefixAwareBeamSearcher E) : result unit :=
  if valid_config a then Ok tt else Raise ValueError.

(** ** A small concrete set of collaborators

    Used to run the model on concrete inputs: an embedding table that maps a
    token id [t] to the vector [[t; 1]], a cell that accumulates its input in
    the carry, a dense layer that appends the sum of its input, and a beam
    searcher that checks its configuration as the spec says and reports the
    initial logits of its input. *)
Module Toy.

Definition vadd (u v : Vec) : Vec := zip_with Qplus u v.

Definition step (_ : Z) (x : Vec) (st : Vec * Vec) : Vec * (Vec * Vec) :=
  let carry := vadd st.2 x in
  let memory := vadd st.1 carry in
  (memory, (memory, carry)).

Definition dense (_ : Z) (v : Vec) : Vec := v ++ [fold_right Qplus 0%Q v].

Definition tokenize (s : string) : list Z :=
  map (fun a => Z.of_nat (Ascii.nat_of_ascii a)) (String.list_ascii_of_string s).

Definition embed (d : FtrDict) : result FtrDict :=
  match d !! SENTENCES with
  | Some (VString1 sentences) =>
      let ids := map tokenize sentences in
      Ok (<[TOKENIZED_IDS := VInt2 ids]>
         (<[LENGTH := VInt1 (map (fun row => Z.of_nat (length row)) ids)]>
         (<[EMBEDDED := VFloat3 (map (map (fun t => [inject_Z t; 1%Q])) ids)]> ∅)))
  | _ => Raise KeyError
  end.

Definition decode (cd : Z * Z) (embedded : Tensor3) (st : Tensor2 * Tensor2)
    (lens : list Z) : result (Tensor3 * Ids) :=
  Ok (map (map (dense cd.2)) embedded, map (map (fun _ => 0)) embedded).

#[export] Instance collaborators : Collaborators := {|
  EmbeddingParam := Z;
  Embedding := Z;
  LSTMCell := Z;
  Dense := Z;
  BasicDecoder := Z * Z;
  SearchResult := Tensor2;
  TARGET_COLUMN_NAME := "target";
  create_embedding_layer := fun vocab _ =>
    if 0 <? vocab then Ok vocab else Raise ValueError;
  vocab_size := fun e => e;
  num_units := fun _ => 2;
  sep_id := fun e => e - 1;
  pad_id := fun _ => 0;
  embedding_lookup1 := fun _ t => [inject_Z t; 1%Q];
  embedding_call := fun _ d => embed d;
  LSTMCell_new := fun units => units;
  lstm_zero_state := fun units =>
    (replicate (Z.to_nat units) 0%Q, replicate (Z.to_nat units) 0%Q);
  lstm_step := step;
  Dense_new := fun units => units;
  dense_apply := dense;
  BasicDecoder_new := fun c d => (c, d);
  decoder_call := decode;
  searcher_check := spec_searcher_check;
  searcher_call := fun _ inputs _ init =>
    fst <$> init (map tokenize inputs);
  get_sorted_dict := fun d => d;
  get_sorted_dict_lookup := fun _ _ => eq_refl
|}.

(** [SmartComposeModel(200, url, min_len=3, max_len=16, beam_width=2,
    max_decode_length=4, {target: text}, min_seq_prob=0, length_norm_power=1)]. *)
Definition model : Model.SmartComposeModel := {|
  Model.feature_type_2_name := {[ "target" := "text" ]};
  Model._training_min_len := 3;
  Model._training_max_len := 16;
  Model._inference_min_len := 1;
  Model._inference_max_len := 16;
  Model._beam_width := 2;
  Model._max_decode_length := 4;
  Model._length_norm_power := 1%Q;
  Model._min_seq_prob := 0%Q;
  Model.num_cls_training := 1;
  Model.num_sep_training := 1;
  Model.num_cls_inference := 1;
  Model.num_sep_inference := 0;
  Model.embedding := 200;
  Model._vocab_size := 200;
  Model._num_units := 2;
  Model._sep_id := 199;
  Model._pad_id := 0;
  Model.cell := 2;
  Model.projection_layer := 200;
  Model.decoder := (2, 200);
  Model.prefix_aware_beam_searcher := {|
    bs_vocab_size := 200; bs_beam_width := 2; bs_length_norm_power := 1%Q;
    bs_max_decode_length := 4; bs_sep_id := 199; bs_pad_id := 0;
    bs_min_seq_prob := 0%Q; bs_embedding := 200; bs_min_len := 1;
    bs_max_len := 16; bs_num_cls := 1; bs_num_sep := 0 |}
|}.

Definition cache0 : Cache :=
  {[ "last_state" := ([[1%Q; 2%Q]; [3%Q; 4%Q]], [[0%Q; 1%Q]; [1%Q; 0%Q]]);
     "step" := ([[7%Q]], [[8%Q]]) ]}.

End Toy.

(** * Properties of model.py *)

(** ** The model on concrete inputs *)

Example tile_batch_copies : tile_batch [1; 2] 3 = [1; 1; 1; 2; 2; 2].
Proof. reflexivity. Qed.

Example column_inside : column 1 [[5; 6]; [7; 8]] = Ok [6; 8].
Proof. reflexivity. Qed.

Example column_outside :
  column 2 [[5; 6]; [7; 8]] = @Raise (list Z) InvalidArgumentError.
Proof. reflexivity. Qed.

Example column_of_ragged_rows : column 0 [[5; 6]; [7]] = @Raise (list Z) ValueError.
Proof. reflexivity. Qed.

Example wrap_int32_overflow : wrap_int32 (2 ^ 31) = - 2 ^ 31.
Proof. reflexivity. Qed.

Example toy_step :
  Model.get_logits_and_cache Toy.model [[5; 6]; [7; 8]] 1 Toy.cache0
  = Ok ([[7; 4; 11]; [12; 5; 17]]%Q,
        <["last_state" := ([[7; 4]; [12; 5]], [[6; 2]; [9; 1]])%Q]> Toy.cache0).
Proof. vm_compute. reflexivity. Qed.

Example toy_step_without_state :
  Model.get_logits_and_cache Toy.model [[5; 6]; [7; 8]] 1
    (delete "last_state" Toy.cache0)
  = Raise KeyError.
Proof. vm_compute. reflexivity. Qed.

Example toy_initial :
  Model.get_initial_logits_and_cache_fn Toy.model [[5; 6; 7]]
  = Ok ([[34; 6; 40]; [34; 6; 40]]%Q,
        {[ "last_state" := ([[34; 6]; [34; 6]], [[18; 3]; [18; 3]])%Q ]}).
Proof. vm_compute. reflexivity. Qed.

(** A state of batch size 1 is broadcast against the two rows of [ids]. *)
Example toy_step_broadcast :
  Model.get_logits_and_cache Toy.model [[5; 6]; [7; 8]] 1
    {[ "last_state" := ([[1; 2]], [[0; 1]])%Q ]}
  = Ok ([[7; 4; 11]; [9; 4; 13]]%Q,
        {[ "last_state" := ([[7; 4]; [9; 4]], [[6; 2]; [8; 2]])%Q ]}).
Proof. vm_compute. reflexivity. Qed.

Example toy_step_incompatible_batch :
  Model.get_logits_and_cache Toy.model [[5; 6]; [7; 8]] 1
    {[ "last_state" := ([[1; 2]; [3; 4]; [5; 6]], [[0; 1]])%Q ]}
  = Raise InvalidArgumentError.
Proof. vm_compute. reflexivity. Qed.

(** Without a token the encoder returns the zero output and the zero state. *)
Example toy_initial_empty_prefix :
  Model.get_initial_logits_and_cache_fn Toy.model [[]]
  = Ok ([[0; 0; 0]; [0; 0; 0]]%Q,
        {[ "last_state" := ([[0; 0]; [0; 0]], [[0; 0]; [0; 0]])%Q ]}).
Proof. vm_compute. reflexivity. Qed.

Section ModelFacts.
Context `{C : Collaborators}.
Import Model.

Lemma toy_model_constructed :
  Model.__init__ (C := Toy.collaborators) 200 "hub" 3 16 2 4
    {[ "target" := "text" ]} 0%Q 1%Q = Ok Toy.model.
Proof. reflexivity. Qed.


(** Inversion of a monadic bind that returned. *)
Lemma bind_Ok {A B} (m : result A) (k : A -> result B) (b : B) :
  m ≫= k = Ok b -> exists a, m = Ok a /\ k a = Ok b.
Proof. destruct m as [a|e]; cbn; [eauto | discriminate]. Qed.

Ltac inv_bind H :=
  let a := fresh "a" in
  let Ha := fresh "Ha" in
  apply bind_Ok in H; destruct H as (a & Ha & H).

Lemma getitem_Ok `{Countable K} {V} (d : gmap K V) (k : K) (v : V) :
  getitem d k = Ok v <-> d !! k = Some v.
Proof. unfold getitem. destruct (d !! k); split; congruence. Qed.

Lemma traverse_length {A B} (f : A -> result B) (l : list A) (r : list B) :
  traverse f l = Ok r -> length r = length l.
Proof.
  revert r. induction l as [|x l IH]; cbn; intros r H.
  - injection H as <-. reflexivity.
  - inv_bind H. inv_bind H. injection H as <-. cbn. f_equal. eauto.
Qed.

Lemma column_length {A} (i : nat) (t : list (list A)) (col : list A) :
  column i t = Ok col -> length col = length t.
Proof.
  unfold column. destruct (rectangular t); [apply traverse_length | discriminate].
Qed.

Lemma cell_rows_length (c : LSTMCell) (xs hs crs outs hs' crs' : Tensor2) :
  cell_rows c xs hs crs = Ok (outs, (hs', crs')) ->
  length hs = length xs /\ length crs = length xs /\
  length outs = length xs /\ length hs' = length xs /\ length crs' = length xs.
Proof.
  revert hs crs outs hs' crs'.
  induction xs as [|x xs IH]; intros [|h hs] [|cr crs] outs hs' crs' H;
    cbn in H; try discriminate.
  - injection H as <- <- <-. auto.
  - destruct (lstm_step c x (h, cr)) as [o [h1 c1]].
    inv_bind H. destruct a as [os [hs1 crs1]]. injection H as <- <- <-.
    apply IH in Ha. destruct Ha as (? & ? & ? & ? & ?).
    cbn. repeat split; congruence.
Qed.

Lemma cell_rows_returns (c : LSTMCell) (xs hs crs : Tensor2) :
  length hs = length xs -> length crs = length xs ->
  exists r, cell_rows c xs hs crs = Ok r.
Proof.
  revert hs crs.
  induction xs as [|x xs IH]; intros [|h hs] [|cr crs] Hh Hc;
    cbn in Hh, Hc; try discriminate.
  - cbn. eauto.
  - cbn. destruct (lstm_step c x (h, cr)) as [o [h1 c1]].
    destruct (IH hs crs) as [[os [hs1 crs1]] ->]; [congruence .. |].
    cbn. eauto.
Qed.

Lemma cell_rows_lookup (c : LSTMCell) (xs hs crs outs hs' crs' : Tensor2)
    (j : nat) (x h cr : Vec) :
  cell_rows c xs hs crs = Ok (outs, (hs', crs')) ->
  xs !! j = Some x -> hs !! j = Some h -> crs !! j = Some cr ->
  outs !! j = Some (lstm_step c x (h, cr)).1 /\
  hs' !! j = Some (lstm_step c x (h, cr)).2.1 /\
  crs' !! j = Some (lstm_step c x (h, cr)).2.2.
Proof.
  revert hs crs outs hs' crs' j.
  induction xs as [|x0 xs IH]; intros [|h0 hs] [|c0 crs] outs hs' crs' j H;
    cbn in H; try discriminate.
  destruct (lstm_step c x0 (h0, c0)) as [o [h1 c1]] eqn:Es.
  inv_bind H. destruct a as [os [hs1 crs1]]. injection H as <- <- <-.
  destruct j as [|j]; cbn.
  - intros [= <-] [= <-] [= <-]. by rewrite Es.
  - by apply IH.
Qed.

Lemma broadcast_Ok (n m B : nat) :
  broadcast n m = Ok B -> (n = B \/ n = 1%nat) /\ (m = B \/ m = 1%nat).
Proof.
  unfold broadcast.
  destruct (Nat.eqb_spec n m) as [->|_]; [intros [= ->]; auto|].
  destruct (Nat.eqb_spec n 1) as [->|_]; [intros [= ->]; auto|].
  destruct (Nat.eqb_spec m 1) as [->|_]; [intros [= ->]; auto|].
  discriminate.
Qed.

Lemma broadcast_same (n : nat) : broadcast n n = Ok n.
Proof. unfold broadcast. by rewrite Nat.eqb_refl. Qed.

Lemma broadcast_to_same {A} (B : nat) (t : list A) :
  length t = B -> broadcast_to B t = t.
Proof. destruct t as [|x [|y t]]; cbn; intros <-; done. Qed.

Lemma broadcast_to_length {A} (B : nat) (t : list A) :
  length t = B \/ length t = 1%nat -> length (broadcast_to B t) = B.
Proof.
  destruct t as [|x [|y t]]; cbn; rewrite ?length_replicate;
    intros [H|H]; done.
Qed.

(** The batch size three compatible tensors broadcast to is the batch size
    of each of them, or that one has batch size 1. *)
Lemma broadcast_chain (n m k B1 B : nat) :
  broadcast n m = Ok B1 -> broadcast B1 k = Ok B ->
  (n = B \/ n = 1%nat) /\ (m = B \/ m = 1%nat) /\ (k = B \/ k = 1%nat).
Proof.
  intros H1 H2. apply broadcast_Ok in H1 as [Hn Hm], H2 as [HB Hk].
  destruct Hn, Hm, HB; subst; auto.
Qed.

(** Without broadcasting: on tensors of one batch size the cell steps row by
    row. *)
Lemma cell_call_aligned (c : LSTMCell) (xs hs crs : Tensor2) :
  length hs = length xs -> length crs = length xs ->
  cell_call c xs hs crs = cell_rows c xs hs crs.
Proof.
  intros Hh Hc. unfold cell_call.
  rewrite Hh, broadcast_same. cbn. rewrite Hc, broadcast_same. cbn.
  by rewrite !broadcast_to_same.
Qed.

(** The cell returns exactly when the three batch sizes broadcast. *)
Lemma cell_call_returns_iff (c : LSTMCell) (xs hs crs : Tensor2) :
  (exists r, cell_call c xs hs crs = Ok r) <->
  exists B1 B, broadcast (length xs) (length hs) = Ok B1 /\
               broadcast B1 (length crs) = Ok B.
Proof.
  unfold cell_call. split.
  - intros [r H]. inv_bind H. inv_bind H. eauto.
  - intros (B1 & B & H1 & H2). rewrite H1. cbn. rewrite H2. cbn.
    destruct (broadcast_chain _ _ _ _ _ H1 H2) as (Hx & Hh & Hc).
    apply cell_rows_returns; rewrite !broadcast_to_length; done.
Qed.

(** The output and both new states have the batch size the three inputs
    broadcast to. *)
Lemma cell_call_length (c : LSTMCell) (xs hs crs outs hs' crs' : Tensor2) :
  cell_call c xs hs crs = Ok (outs, (hs', crs')) ->
  (exists B1, broadcast (length xs) (length hs) = Ok B1 /\
              broadcast B1 (length crs) = Ok (length outs)) /\
  length hs' = length outs /\ length crs' = length outs.
Proof.
  unfold cell_call. intros H.
  inv_bind H. rename a into B1, Ha into H1.
  inv_bind H. rename a into B, Ha into H2.
  destruct (broadcast_chain _ _ _ _ _ H1 H2) as (Hx & _ & _).
  apply cell_rows_length in H as (_ & _ & Ho & Hh & Hc).
  rewrite broadcast_to_length in Ho, Hh, Hc by done. subst B.
  split; [eauto|]. split; congruence.
Qed.

Lemma cell_call_returns (c : LSTMCell) (xs hs crs : Tensor2) :
  length hs = length xs -> length crs = length xs ->
  exists r, cell_call c xs hs crs = Ok r.
Proof.
  intros Hh Hc. rewrite cell_call_aligned by done. by apply cell_rows_returns.
Qed.

Lemma single_token_embedding (self : SmartComposeModel) (tokens : list Z) :
  _get_embedding_for_single_token self tokens
  = Ok (map (embedding_lookup1 (embedding self)) tokens).
Proof. reflexivity. Qed.

(** The call returns whenever column [i] exists and the cache holds a state
    with one row per row of [ids]. *)
Lemma get_logits_and_cache_returns (self : SmartComposeModel) (ids : Ids)
    (i : nat) (cache : Cache) (tokens : list Z) (st : Tensor2 * Tensor2) :
  column i ids = Ok tokens ->
  cache !! "last_state" = Some st ->
  length st.1 = length ids -> length st.2 = length ids ->
  exists r, get_logits_and_cache self ids i cache = Ok r.
Proof.
  intros Hcol Hst H1 H2. unfold get_logits_and_cache.
  rewrite Hcol. cbn.
  apply getitem_Ok in Hst. rewrite Hst. cbn.
  apply column_length in Hcol.
  destruct (cell_call_returns (cell self)
              (map (embedding_lookup1 (embedding self)) tokens) st.1 st.2)
    as [[outs new] ->]; rewrite ?length_map; [congruence .. |].
  cbn. eauto.
Qed.

Lemma get_logits_and_cache_replaces_last_state_aux (self : SmartComposeModel)
    (ids : Ids) (i : nat) (cache cache' : Cache) (logits : Tensor2) :
  get_logits_and_cache self ids i cache = Ok (logits, cache') ->
  exists new, cache' = <["last_state" := new]> cache.
Proof.
  unfold get_logits_and_cache. intros H.
  inv_bind H. inv_bind H. inv_bind H. inv_bind H.
  destruct a2 as [cell_output new]. injection H as <- <-. by exists new.
Qed.

(** The call returns exactly when column [i] exists, the cache holds a
    state, and the batch sizes of [ids], of the memory and of the carry
    broadcast. *)
Lemma get_logits_and_cache_returns_iff (self : SmartComposeModel) (ids : Ids)
    (i : nat) (cache : Cache) :
  (exists r, get_logits_and_cache self ids i cache = Ok r) <->
  exists tokens st B1 B,
    column i ids = Ok tokens /\ cache !! "last_state" = Some st /\
    broadcast (length ids) (length st.1) = Ok B1 /\
    broadcast B1 (length st.2) = Ok B.
Proof.
  unfold get_logits_and_cache. split.
  - intros [r H].
    inv_bind H. rename a into tokens, Ha into Hcol.
    rewrite single_token_embedding in H. cbn in H.
    inv_bind H. rename a into st, Ha into Hst. apply getitem_Ok in Hst.
    inv_bind H. rename Ha into Hcell.
    destruct (proj1 (cell_call_returns_iff _ _ _ _) (ex_intro _ _ Hcell))
      as (B1 & B & H1 & H2).
    rewrite length_map, (column_length _ _ _ Hcol) in H1. eauto 8.
  - intros (tokens & st & B1 & B & Hcol & Hst & H1 & H2).
    rewrite Hcol. cbn. apply getitem_Ok in Hst. rewrite Hst. cbn.
    destruct (proj2 (cell_call_returns_iff (cell self)
                (map (embedding_lookup1 (embedding self)) tokens) st.1 st.2))
      as [[outs new] ->].
    { exists B1, B. by rewrite length_map, (column_length _ _ _ Hcol). }
    cbn. eauto.
Qed.

(** C6. Whenever [get_logits_and_cache] returns, the cache it returns is the
    cache it was given with the entry at ["last_state"] replaced by the state
    the cell produced from the old entry; every other entry is as it was and
    the keys are the same. The new entry is again a [memory, carry] pair, of
    one batch size, that of the logits: the size the batch sizes of [ids] and
    of the old pair broadcast to. When the old pair has one row per row of
    [ids], the new pair has the batch size of the old one. *)
Theorem get_logits_and_cache_replaces_last_state (self : SmartComposeModel)
    (ids : Ids) (i : nat) (cache cache' : Cache) (logits : Tensor2) :
  get_logits_and_cache self ids i cache = Ok (logits, cache') ->
  exists tokens old cell_output new,
    column i ids = Ok tokens /\
    cache !! "last_state" = Some old /\
    cell_call (cell self) (map (embedding_lookup1 (embedding self)) tokens)
      old.1 old.2 = Ok (cell_output, new) /\
    cache' = <["last_state" := new]> cache /\
    cache' !! "last_state" = Some new /\
    (forall k, k ≠ "last_state" -> cache' !! k = cache !! k) /\
    dom cache' = dom cache /\
    length new.1 = length logits /\ length new.2 = length logits /\
    (exists B1, broadcast (length ids) (length old.1) = Ok B1 /\
                broadcast B1 (length old.2) = Ok (length logits)) /\
    (length old.1 = length ids -> length old.2 = length ids ->
     length new.1 = length old.1 /\ length new.2 = length old.2).
Proof.
  unfold get_logits_and_cache. intros H.
  inv_bind H. rename a into tokens, Ha into Hcol.
  rewrite single_token_embedding in H. cbn in H.
  inv_bind H. rename a into old, Ha into Hold. apply getitem_Ok in Hold.
  inv_bind H. destruct a as [cell_output new]. injection H as <- <-.
  exists tokens, old, cell_output, new.
  destruct new as [hs' crs']. pose proof Ha as Hlen.
  apply cell_call_length in Hlen as ((B1 & H1 & H2) & Hh & Hc).
  rewrite length_map, (column_length _ _ _ Hcol) in H1.
  cbn [fst snd]. rewrite length_map.
  split; [done|]. split; [done|]. split; [done|]. split; [done|].
  split; [apply lookup_insert_eq|].
  split; [intros k Hk; by apply lookup_insert_ne|].
  split.
  { rewrite dom_insert_L. apply elem_of_dom_2 in Hold.
    apply subseteq_union_1_L. by apply singleton_subseteq_l. }
  split; [done|]. split; [done|]. split; [eauto|].
  intros E1 E2. rewrite E1, broadcast_same in H1. injection H1 as <-.
  rewrite E2, broadcast_same in H2. injection H2 as H2.
  split; congruence.
Qed.

(** On the heap, the call returns the reference it was given and changes
    the dictionary behind it only: every alias of the cache sees the new
    state. *)
Lemma get_logits_and_cache_in_place (self : SmartComposeModel) (ids : Ids)
    (i : nat) (cache ref : positive) (heap heap' : gmap positive Cache)
    (logits : Tensor2) :
  get_logits_and_cache_obj self ids i cache heap = Ok (logits, ref, heap') ->
  ref = cache /\
  exists d new,
    heap !! cache = Some d /\
    heap' = <[cache := <["last_state" := new]> d]> heap /\
    forall other, other ≠ cache -> heap' !! other = heap !! other.
Proof.
  unfold get_logits_and_cache_obj. intros H.
  inv_bind H. rename a into d. apply getitem_Ok in Ha.
  inv_bind H. destruct a as [l d']. injection H as <- <- <-.
  apply get_logits_and_cache_replaces_last_state_aux in Ha0 as (new & ->).
  split; [done|]. exists d, new. repeat split; [done|].
  intros other Hne. by apply lookup_insert_ne.
Qed.

End ModelFacts.

Lemma get_logits_and_cache_replaces_last_state_witness :
  exists tokens old cell_output new,
    column 1 [[5; 6]; [7; 8]] = Ok tokens /\
    Toy.cache0 !! "last_state" = Some old /\
    Model.cell_call (Model.cell Toy.model)
      (map (embedding_lookup1 (Model.embedding Toy.model)) tokens)
      old.1 old.2 = Ok (cell_output, new) /\
    <["last_state" := ([[7; 4]; [12; 5]], [[6; 2]; [9; 1]])%Q]> Toy.cache0
      = <["last_state" := new]> Toy.cache0 /\
    <["last_state" := ([[7; 4]; [12; 5]], [[6; 2]; [9; 1]])%Q]> Toy.cache0
      !! "last_state" = Some new /\
    (forall k, k ≠ "last_state" ->
       <["last_state" := ([[7; 4]; [12; 5]], [[6; 2]; [9; 1]])%Q]> Toy.cache0 !! k
       = Toy.cache0 !! k) /\
    dom (<["last_state" := ([[7; 4]; [12; 5]], [[6; 2]; [9; 1]])%Q]> Toy.cache0)
      = dom Toy.cache0 /\
    length new.1 = length [[7; 4; 11]; [12; 5; 17]]%Q /\
    length new.2 = length [[7; 4; 11]; [12; 5; 17]]%Q /\
    (exists B1, broadcast (length [[5; 6]; [7; 8]]) (length old.1) = Ok B1 /\
                broadcast B1 (length old.2)
                = Ok (length [[7; 4; 11]; [12; 5; 17]]%Q)) /\
    (length old.1 = length [[5; 6]; [7; 8]] ->
     length old.2 = length [[5; 6]; [7; 8]] ->
     length new.1 = length old.1 /\ length new.2 = length old.2).
Proof.
  apply (get_logits_and_cache_replaces_last_state (C := Toy.collaborators)
           Toy.model [[5; 6]; [7; 8]] 1 Toy.cache0 _
           [[7; 4; 11]; [12; 5; 17]]%Q).
  vm_compute. reflexivity.
Defined.

Section StepFunction.
Context `{C : Collaborators}.
Import Model.

(** C7. The logits and the new hidden state [get_logits_and_cache] returns
    are determined by column [i] of [ids] and by the ["last_state"] entry of
    the cache: two calls that agree on both return the same logits and the
    same new state (or raise the same exception), whatever the other columns
    of [ids] and the other entries of the cache are. *)
Theorem get_logits_and_cache_reads_column_and_state (self : SmartComposeModel)
    (ids1 ids2 : Ids) (i : nat) (cache1 cache2 : Cache) :
  column i ids1 = column i ids2 ->
  cache1 !! "last_state" = cache2 !! "last_state" ->
  fst <$> get_logits_and_cache self ids1 i cache1
    = fst <$> get_logits_and_cache self ids2 i cache2 /\
  (fun r => r.2 !! "last_state") <$> get_logits_and_cache self ids1 i cache1
    = (fun r => r.2 !! "last_state") <$> get_logits_and_cache self ids2 i cache2.
Proof.
  intros Hcol Hst. unfold get_logits_and_cache, getitem.
  rewrite Hcol, Hst.
  destruct (column i ids2) as [tokens|e]; cbn; [|done].
  destruct (cache2 !! "last_state") as [st|]; cbn; [|done].
  destruct (cell_call _ _ _ _) as [[outs new]|e]; cbn; [|done].
  by rewrite !lookup_insert_eq.
Qed.

(** C9. [call] returns what [prefix_aware_beam_search] returns on the same
    inputs; the [training] flag and the [mask] do not enter the result: in
    training mode too the result is the beam searcher's, called on the target
    column with the two inference closures. *)
Theorem call_ignores_training_and_mask (self : SmartComposeModel)
    (inputs : gmap string (list string)) (training : bool)
    (mask : option (list bool)) :
  call self inputs training mask = prefix_aware_beam_search self inputs /\
  (forall training' mask',
     call self inputs training' mask' = call self inputs training mask) /\
  call self inputs training mask
  = match feature_type_2_name self !! TARGET_COLUMN_NAME with
    | None => Raise KeyError
    | Some name =>
        match inputs !! name with
        | None => Raise KeyError
        | Some text =>
            searcher_call (prefix_aware_beam_searcher self) text
              (get_logits_and_cache self) (get_initial_logits_and_cache_fn self)
        end
    end.
Proof.
  split; [reflexivity|]. split; [intros; reflexivity|].
  unfold call, prefix_aware_beam_search, getitem.
  destruct (feature_type_2_name self !! TARGET_COLUMN_NAME) as [name|]; cbn;
    [|done].
  destruct (inputs !! name); done.
Qed.


End StepFunction.

Lemma get_logits_and_cache_reads_column_and_state_witness :
  fst <$> Model.get_logits_and_cache Toy.model [[5; 6]; [7; 8]] 1 Toy.cache0
    = fst <$> Model.get_logits_and_cache Toy.model [[0; 6; 1]; [9; 8; 2]] 1
                (delete "step" Toy.cache0) /\
  (fun r => r.2 !! "last_state")
    <$> Model.get_logits_and_cache Toy.model [[5; 6]; [7; 8]] 1 Toy.cache0
    = (fun r => r.2 !! "last_state")
    <$> Model.get_logits_and_cache Toy.model [[0; 6; 1]; [9; 8; 2]] 1
          (delete "step" Toy.cache0).
Proof.
  apply (get_logits_and_cache_reads_column_and_state (C := Toy.collaborators));
    reflexivity.
Defined.


(** ** Tiling and slicing *)

Lemma tile_batch_length {A} (t : list A) (n : Z) :
  length (tile_batch t n) = (length t * Z.to_nat n)%nat.
Proof.
  unfold tile_batch. induction t as [|x t IH]; cbn; [done|].
  rewrite length_app, length_replicate, IH. done.
Qed.

Lemma tile_batch_lookup {A} (t : list A) (n : Z) (b k : nat) (x : A) :
  t !! b = Some x -> (k < Z.to_nat n)%nat ->
  tile_batch t n !! (b * Z.to_nat n + k)%nat = Some x.
Proof.
  unfold tile_batch. revert b.
  induction t as [|y t IH]; intros b Hb Hk; [done|].
  destruct b as [|b]; cbn in *.
  - injection Hb as ->. rewrite lookup_app_l by (by rewrite length_replicate).
    by apply lookup_replicate_2.
  - rewrite lookup_app_r by (rewrite length_replicate; lia).
    rewrite length_replicate.
    replace (Z.to_nat n + b * Z.to_nat n + k - Z.to_nat n)%nat
      with (b * Z.to_nat n + k)%nat by lia.
    by apply IH.
Qed.

Lemma lookup_map {A B} (f : A -> B) (l : list A) (i : nat) :
  map f l !! i = f <$> l !! i.
Proof.
  revert i. induction l as [|x l IH]; intros [|i]; cbn; auto.
Qed.

Lemma lookup_tail {A} (l : list A) (i : nat) : tail l !! i = l !! S i.
Proof. by destruct l. Qed.

Lemma lookup_removelast {A} (l : list A) (i : nat) :
  (S i < length l)%nat -> removelast l !! i = l !! i.
Proof.
  revert i. induction l as [|x l IH]; intros i Hi; [done|].
  destruct l as [|y l]; [cbn in Hi; lia|].
  change (removelast (x :: y :: l)) with (x :: removelast (y :: l)).
  destruct i as [|i]; [done|]. cbn [lookup list_lookup].
  apply IH. cbn in *. lia.
Qed.

Lemma length_removelast {A} (l : list A) :
  length (removelast l) = (length l - 1)%nat.
Proof.
  induction l as [|x l IH]; [done|].
  destruct l as [|y l]; [done|].
  change (removelast (x :: y :: l)) with (x :: removelast (y :: l)).
  cbn [length] in *. lia.
Qed.

Lemma wrap_int32_small (z : Z) :
  - 2 ^ 31 <= z < 2 ^ 31 -> wrap_int32 z = z.
Proof.
  intros Hz. unfold wrap_int32. rewrite Z.mod_small; lia.
Qed.

Lemma sub_one_int32_lengths (lens : list Z) :
  Forall (fun l => 0 <= l < 2 ^ 31) lens ->
  sub_one_int32 lens = map (fun l => l - 1) lens.
Proof.
  unfold sub_one_int32. induction 1 as [|l lens Hl _ IH]; cbn; [done|].
  rewrite IH, wrap_int32_small by lia. done.
Qed.

Section Training.
Context `{C : Collaborators}.
Import Model.

(** C10. When the embedding layer and the decoder return, and the encoded
    lengths are lengths (non-negative int32 values), the training dictionary
    holds under [LABEL] the token ids without their first time step, under
    [LOGIT] the decoder's [rnn_output] without its last time step, and under
    [LENGTH] the encoded lengths minus one; so label [i] of an example is
    token [i + 1] and logit [i] is [rnn_output] at step [i]. *)
Theorem training_labels_are_shifted_ids (self : SmartComposeModel)
    (inputs : gmap string (list string)) (name : string)
    (sentences : list string) (embedded_outputs : FtrDict)
    (embedded rnn_output : Tensor3) (lens : list Z) (ids sample_id : Ids) :
  feature_type_2_name self !! TARGET_COLUMN_NAME = Some name ->
  inputs !! name = Some sentences ->
  _get_embedding_outputs_for_training self sentences = Ok embedded_outputs ->
  embedded_outputs !! EMBEDDED = Some (VFloat3 embedded) ->
  embedded_outputs !! LENGTH = Some (VInt1 lens) ->
  embedded_outputs !! TOKENIZED_IDS = Some (VInt2 ids) ->
  decoder_call (decoder self) embedded (get_initial_state (cell self) embedded)
    lens = Ok (rnn_output, sample_id) ->
  Forall (fun l => 0 <= l < 2 ^ 31) lens ->
  exists out,
    get_training_probs_and_labels self inputs = Ok out /\
    out !! LABEL = Some (VInt2 (map (@tail Z) ids)) /\
    out !! LOGIT = Some (VFloat3 (map (@removelast Vec) rnn_output)) /\
    out !! LENGTH = Some (VInt1 (map (fun l => l - 1) lens)) /\
    (forall b row i, ids !! b = Some row ->
       map (@tail Z) ids !! b ≫= (.!! i) = row !! S i) /\
    (forall b steps i, rnn_output !! b = Some steps -> (S i < length steps)%nat ->
       map (@removelast Vec) rnn_output !! b ≫= (.!! i) = steps !! i).
Proof.
  intros Hname Hin Hemb Hembedded Hlens Hids Hdec Hrange.
  unfold get_training_probs_and_labels.
  apply getitem_Ok in Hname, Hin, Hembedded, Hlens, Hids.
  rewrite Hname. cbn. rewrite Hin. cbn. rewrite Hemb. cbn.
  rewrite Hembedded. cbn. rewrite Hlens. cbn. rewrite Hdec. cbn.
  rewrite Hids. cbn. eexists. split; [reflexivity|].
  rewrite !get_sorted_dict_lookup.
  rewrite (sub_one_int32_lengths _ Hrange).
  repeat split.
  - intros b row i Hb. rewrite lookup_map, Hb. cbn. apply lookup_tail.
  - intros b steps i Hb Hi. rewrite lookup_map, Hb. cbn.
    by apply lookup_removelast.
Qed.

End Training.

Lemma training_labels_are_shifted_ids_witness :
  exists out,
    Model.get_training_probs_and_labels Toy.model {[ "text" := ["abc"; "de"]%string ]}
      = Ok out /\
    out !! LABEL = Some (VInt2 (map (@tail Z) [[97; 98; 99]; [100; 101]])) /\
    out !! LOGIT = Some (VFloat3 (map (@removelast Vec)
      [[[97; 1; 98]; [98; 1; 99]; [99; 1; 100]]; [[100; 1; 101]; [101; 1; 102]]]%Q)) /\
    out !! LENGTH = Some (VInt1 (map (fun l => l - 1) [3; 2])) /\
    (forall b row i, [[97; 98; 99]; [100; 101]] !! b = Some row ->
       map (@tail Z) [[97; 98; 99]; [100; 101]] !! b ≫= (.!! i) = row !! S i) /\
    (forall b steps i,
       [[[97; 1; 98]; [98; 1; 99]; [99; 1; 100]]; [[100; 1; 101]; [101; 1; 102]]]%Q
         !! b = Some steps ->
       (S i < length steps)%nat ->
       map (@removelast Vec)
         [[[97; 1; 98]; [98; 1; 99]; [99; 1; 100]]; [[100; 1; 101]; [101; 1; 102]]]%Q
         !! b ≫= (.!! i) = steps !! i).
Proof.
  apply (training_labels_are_shifted_ids (C := Toy.collaborators) Toy.model
           {[ "text" := ["abc"; "de"]%string ]} "text" ["abc"; "de"]%string
           (<[TOKENIZED_IDS := VInt2 [[97; 98; 99]; [100; 101]]]>
           (<[LENGTH := VInt1 [3; 2]]>
           (<[EMBEDDED := VFloat3 [[[97; 1]; [98; 1]; [99; 1]];
                                   [[100; 1]; [101; 1]]]%Q]> ∅)))
           [[[97; 1]; [98; 1]; [99; 1]]; [[100; 1]; [101; 1]]]%Q
           _ [3; 2] _ [[0; 0; 0]; [0; 0]]).
  - reflexivity.
  - reflexivity.
  - vm_compute. reflexivity.
  - reflexivity.
  - reflexivity.
  - reflexivity.
  - vm_compute. reflexivity.
  - repeat constructor; lia.
Defined.

Section InitialState.
Context `{C : Collaborators}.
Import Model.

Lemma rnn_example_prefix (self : SmartComposeModel) (row : list Z) :
  row ≠ [] ->
  rnn_example (cell self) (map (embedding_lookup1 (embedding self)) row)
  = prefix_encoding self row.
Proof. destruct row; [done|]. reflexivity. Qed.

(** Without a token the encoder gives the zero output and the zero state. *)
Lemma rnn_example_empty (c : LSTMCell) :
  rnn_example c [] = ((lstm_zero_state c).1, lstm_zero_state c).
Proof. reflexivity. Qed.

Lemma RNN_prefix (self : SmartComposeModel) (ids : Ids) :
  Forall (fun row => row ≠ []) ids ->
  map (rnn_example (cell self)) (embedding_lookup (embedding self) ids)
  = map (prefix_encoding self) ids.
Proof.
  induction 1 as [|row ids Hrow _ IH]; cbn; [done|].
  rewrite (rnn_example_prefix self row Hrow).
  unfold embedding_lookup in IH. by rewrite IH.
Qed.

(** C3. For a batch of non-empty token-id sequences,
    [get_initial_logits_and_cache_fn] returns; the cache it returns has the
    single key ["last_state"], bound to the pair [memory, carry] in which the
    final memory state and the final carry state of every example, obtained by
    folding the cell once over its whole prefix, appear [beam_width] times in a
    row; the logits are the output projection of the final output, tiled the
    same way. *)
Theorem initial_state_is_tiled (self : SmartComposeModel) (ids : Ids) :
  Forall (fun row => row ≠ []) ids ->
  exists logits memory carry,
    get_initial_logits_and_cache_fn self ids
      = Ok (logits, {[ "last_state" := (memory, carry) ]}) /\
    memory = tile_batch (map (fun row => (prefix_encoding self row).2.1) ids)
               (_beam_width self) /\
    carry = tile_batch (map (fun row => (prefix_encoding self row).2.2) ids)
              (_beam_width self) /\
    logits = tile_batch
               (map (fun row => dense_apply (projection_layer self)
                                  (prefix_encoding self row).1) ids)
               (_beam_width self) /\
    length memory = (length ids * Z.to_nat (_beam_width self))%nat /\
    length carry = (length ids * Z.to_nat (_beam_width self))%nat /\
    length logits = (length ids * Z.to_nat (_beam_width self))%nat /\
    forall b row k,
      ids !! b = Some row -> (k < Z.to_nat (_beam_width self))%nat ->
      memory !! (b * Z.to_nat (_beam_width self) + k)%nat
        = Some (prefix_encoding self row).2.1 /\
      carry !! (b * Z.to_nat (_beam_width self) + k)%nat
        = Some (prefix_encoding self row).2.2 /\
      logits !! (b * Z.to_nat (_beam_width self) + k)%nat
        = Some (dense_apply (projection_layer self) (prefix_encoding self row).1).
Proof.
  intros Hrows. unfold get_initial_logits_and_cache_fn, RNN.
  rewrite (RNN_prefix self ids Hrows). cbn.
  rewrite !map_map. do 3 eexists.
  split; [reflexivity|]. do 3 (split; [reflexivity|]).
  rewrite !tile_batch_length, !length_map.
  do 3 (split; [reflexivity|]).
  intros b row k Hb Hk.
  repeat split; apply tile_batch_lookup; auto; rewrite lookup_map, Hb; done.
Qed.

End InitialState.

Lemma initial_state_is_tiled_witness :
  exists logits memory carry,
    Model.get_initial_logits_and_cache_fn Toy.model [[5; 6; 7]]
      = Ok (logits, {[ "last_state" := (memory, carry) ]}) /\
    memory = tile_batch
               (map (fun row => (Model.prefix_encoding Toy.model row).2.1) [[5; 6; 7]])
               (Model._beam_width Toy.model) /\
    carry = tile_batch
              (map (fun row => (Model.prefix_encoding Toy.model row).2.2) [[5; 6; 7]])
              (Model._beam_width Toy.model) /\
    logits = tile_batch
               (map (fun row => dense_apply (Model.projection_layer Toy.model)
                                  (Model.prefix_encoding Toy.model row).1) [[5; 6; 7]])
               (Model._beam_width Toy.model) /\
    length memory = (1 * 2)%nat /\
    length carry = (1 * 2)%nat /\
    length logits = (1 * 2)%nat /\
    forall b row k,
      [[5; 6; 7]] !! b = Some row -> (k < 2)%nat ->
      memory !! (b * 2 + k)%nat = Some (Model.prefix_encoding Toy.model row).2.1 /\
      carry !! (b * 2 + k)%nat = Some (Model.prefix_encoding Toy.model row).2.2 /\
      logits !! (b * 2 + k)%nat
        = Some (dense_apply (Model.projection_layer Toy.model)
                  (Model.prefix_encoding Toy.model row).1).
Proof.
  apply (initial_state_is_tiled (C := Toy.collaborators) Toy.model [[5; 6; 7]]).
  repeat constructor. discriminate.
Defined.

(** ** Construction *)

Lemma valid_config_spec {E} (a : PrefixAwareBeamSearcher E) :
  valid_config a = true <->
  0 < bs_vocab_size a /\ 0 < bs_beam_width a /\
  (0 <= bs_length_norm_power a)%Q /\ 0 < bs_max_decode_length a /\
  (0 <= bs_min_seq_prob a)%Q /\ (bs_min_seq_prob a <= 1)%Q /\
  0 <= bs_sep_id a < bs_vocab_size a /\ 0 <= bs_pad_id a < bs_vocab_size a /\
  bs_min_len a <= bs_max_len a.
Proof.
  unfold valid_config.
  rewrite !andb_true_iff, !Qle_bool_iff, !Z.ltb_lt, !Z.leb_le. tauto.
Qed.

Section Construction.
Context `{C : Collaborators}.
Import Model.

(** Whether construction raises does not depend on [min_len]: the argument
    is stored in [_training_min_len] and handed to no collaborator. *)
Lemma construction_ignores_min_len (p : EmbeddingParam) (url : string)
    (min_len min_len' max_len beam_width max_decode_length : Z)
    (names : gmap string string) (min_seq_prob length_norm_power : Q) :
  is_Raise (__init__ p url min_len max_len beam_width max_decode_length names
              min_seq_prob length_norm_power) <->
  is_Raise (__init__ p url min_len' max_len beam_width max_decode_length names
              min_seq_prob length_norm_power).
Proof.
  unfold __init__, PrefixAwareBeamSearcher_new.
  destruct (create_embedding_layer p url) as [e|]; cbn; [|done].
  destruct (searcher_check _) as [[]|]; cbn; done.
Qed.

(** C2, amended. With a beam searcher whose constructor checks its arguments
    as the spec lists them, and an embedding layer that loads, construction
    raises exactly when the vocabulary size, the beam width or the maximum
    decode length is not positive, the length-normalisation power is negative,
    the minimum sequence probability is outside [0, 1], the separator or pad id
    is outside the vocabulary, or [max_len] is below the inference minimum
    length 1. The caller's [min_len] is not part of the condition. *)
Theorem construction_raises_iff_searcher_config_invalid
    (p : EmbeddingParam) (url : string)
    (min_len max_len beam_width max_decode_length : Z)
    (names : gmap string string) (min_seq_prob length_norm_power : Q)
    (e : Embedding) :
  (forall a, searcher_check a = spec_searcher_check a) ->
  create_embedding_layer p url = Ok e ->
  is_Raise (__init__ p url min_len max_len beam_width max_decode_length names
              min_seq_prob length_norm_power) <->
  ~ (0 < vocab_size e /\ 0 < beam_width /\ (0 <= length_norm_power)%Q /\
     0 < max_decode_length /\
     (0 <= min_seq_prob)%Q /\ (min_seq_prob <= 1)%Q /\
     0 <= sep_id e < vocab_size e /\ 0 <= pad_id e < vocab_size e /\
     1 <= max_len).
Proof.
  intros Hcheck He. unfold __init__, PrefixAwareBeamSearcher_new.
  rewrite He. cbn. rewrite Hcheck. unfold spec_searcher_check.
  match goal with |- context [valid_config ?a] =>
    pose proof (valid_config_spec a) as Hv; destruct (valid_config a) end;
    cbn in *.
  - split; [done|]. intros Hn. apply Hn, Hv. done.
  - split; [|done]. intros _ Hn. apply Hv in Hn. discriminate.
Qed.

End Construction.

Lemma construction_raises_iff_searcher_config_invalid_witness :
  is_Raise (Model.__init__ (C := Toy.collaborators) 200 "hub" 3 16 0 4
              {[ "target" := "text" ]} 0%Q 1%Q) <->
  ~ (0 < 200 /\ 0 < 0 /\ (0 <= 1)%Q /\ 0 < 4 /\
     (0 <= 0)%Q /\ (0 <= 1)%Q /\
     0 <= 200 - 1 < 200 /\ 0 <= 0 < 200 /\ 1 <= 16).
Proof.
  apply (construction_raises_iff_searcher_config_invalid (C := Toy.collaborators)
           200 "hub" 3 16 0 4 {[ "target" := "text" ]} 0%Q 1%Q 200);
    reflexivity.
Defined.

(** C2 as stated fails: with [min_len = 20 > max_len = 16] and an otherwise
    valid configuration, construction returns a model although the beam
    searcher checks everything the spec lists. *)
Lemma construction_accepts_min_len_above_max_len :
  16 < 20 /\
  is_Ok (Model.__init__ (C := Toy.collaborators) 200 "hub" 20 16 2 4
           {[ "target" := "text" ]} 0%Q 1%Q) /\
  ~ is_Raise (Model.__init__ (C := Toy.collaborators) 200 "hub" 20 16 2 4
                {[ "target" := "text" ]} 0%Q 1%Q).
Proof. split; [lia|]. split; [exact I | intros []]. Qed.

(** ** Further properties of model.py *)

Lemma get_logits_and_cache_in_place_witness :
  1%positive = 1%positive /\
  exists d new,
    ({[ 1%positive := Toy.cache0; 2%positive := ∅ ]} : gmap positive Cache)
      !! 1%positive = Some d /\
    <[1%positive := <["last_state" := ([[7; 4]; [12; 5]], [[6; 2]; [9; 1]])%Q]>
                      Toy.cache0]>
      ({[ 1%positive := Toy.cache0; 2%positive := ∅ ]} : gmap positive Cache)
    = <[1%positive := <["last_state" := new]> d]>
        ({[ 1%positive := Toy.cache0; 2%positive := ∅ ]} : gmap positive Cache) /\
    forall other, other ≠ 1%positive ->
      <[1%positive := <["last_state" := ([[7; 4]; [12; 5]], [[6; 2]; [9; 1]])%Q]>
                        Toy.cache0]>
        ({[ 1%positive := Toy.cache0; 2%positive := ∅ ]} : gmap positive Cache)
        !! other
      = ({[ 1%positive := Toy.cache0; 2%positive := ∅ ]} : gmap positive Cache)
          !! other.
Proof.
  apply (get_logits_and_cache_in_place (C := Toy.collaborators) Toy.model
           [[5; 6]; [7; 8]] 1 1%positive 1%positive _ _
           [[7; 4; 11]; [12; 5; 17]]%Q).
  vm_compute. reflexivity.
Defined.

(** ** The step function and the encoder *)

Ltac bind_inv H :=
  let a := fresh "a" in
  let Ha := fresh "Ha" in
  apply bind_Ok in H; destruct H as (a & Ha & H).

Section StepAndEncoder.
Context `{C : Collaborators}.
Import Model.

Lemma prefix_encoding_snoc (self : SmartComposeModel) (row : list Z) (t : Z) :
  prefix_encoding self (row ++ [t])
  = lstm_step (cell self) (embedding_lookup1 (embedding self) t)
      (prefix_encoding self row).2.
Proof. unfold prefix_encoding. by rewrite map_app, fold_left_app. Qed.

Lemma get_initial_explicit (self : SmartComposeModel) (ids : Ids) :
  Forall (fun row => row ≠ []) ids ->
  get_initial_logits_and_cache_fn self ids
  = Ok (tile_batch
          (map (fun row => dense_apply (projection_layer self)
                             (prefix_encoding self row).1) ids)
          (_beam_width self),
        {[ "last_state" :=
             (tile_batch (map (fun row => (prefix_encoding self row).2.1) ids)
                (_beam_width self),
              tile_batch (map (fun row => (prefix_encoding self row).2.2) ids)
                (_beam_width self)) ]}).
Proof.
  intros Hrows. unfold get_initial_logits_and_cache_fn, RNN.
  rewrite (RNN_prefix self ids Hrows). cbn. by rewrite !map_map.
Qed.

(** A batch of empty prefixes: every beam starts from the zero state, and the
    logits are the output projection of the zero output. *)
Lemma get_initial_of_empty_prefixes (self : SmartComposeModel) (n : nat) :
  get_initial_logits_and_cache_fn self (replicate n [])
  = Ok (tile_batch
          (replicate n (dense_apply (projection_layer self)
                          (lstm_zero_state (cell self)).1))
          (_beam_width self),
        {[ "last_state" :=
             (tile_batch (replicate n (lstm_zero_state (cell self)).1)
                (_beam_width self),
              tile_batch (replicate n (lstm_zero_state (cell self)).2)
                (_beam_width self)) ]}).
Proof.
  unfold get_initial_logits_and_cache_fn, RNN, embedding_lookup. cbn.
  assert (E : map (rnn_example (cell self))
                (map (map (embedding_lookup1 (embedding self))) (replicate n []))
              = replicate n ((lstm_zero_state (cell self)).1,
                             lstm_zero_state (cell self))).
  { induction n as [|n IH]; cbn; [done|]. by rewrite IH. }
  rewrite E. clear E.
  assert (R : forall {A B} (f : A -> B) (x : A),
            map f (replicate n x) = replicate n (f x)).
  { intros A B f x. induction n as [|n IH]; cbn; [done|]. by rewrite IH. }
  by rewrite !R.
Qed.

(** The first decode step agrees with the encoder: stepping from the cache
    of [get_initial_logits_and_cache_fn] with one token per beam gives, for
    beam [k] of example [b], the logits and the [memory, carry] state the
    encoder computes for the prefix of example [b] extended by that beam's
    token. *)
Theorem first_step_encodes_extended_prefix (self : SmartComposeModel)
    (ids T : Ids) (i : nat) (tokens : list Z) :
  Forall (fun row => row ≠ []) ids ->
  column i T = Ok tokens ->
  length tokens = (length ids * Z.to_nat (_beam_width self))%nat ->
  exists logits0 cache0 logits1 mem1 carry1,
    get_initial_logits_and_cache_fn self ids = Ok (logits0, cache0) /\
    get_logits_and_cache self T i cache0
      = Ok (logits1, {[ "last_state" := (mem1, carry1) ]}) /\
    forall b row k t,
      ids !! b = Some row -> (k < Z.to_nat (_beam_width self))%nat ->
      tokens !! (b * Z.to_nat (_beam_width self) + k)%nat = Some t ->
      logits1 !! (b * Z.to_nat (_beam_width self) + k)%nat
        = Some (dense_apply (projection_layer self)
                  (prefix_encoding self (row ++ [t])).1) /\
      mem1 !! (b * Z.to_nat (_beam_width self) + k)%nat
        = Some (prefix_encoding self (row ++ [t])).2.1 /\
      carry1 !! (b * Z.to_nat (_beam_width self) + k)%nat
        = Some (prefix_encoding self (row ++ [t])).2.2.
Proof.
  intros Hrows Hcol Hlen. rewrite (get_initial_explicit self ids Hrows).
  set (w := _beam_width self) in *.
  set (mem0 := tile_batch (map (fun row => (prefix_encoding self row).2.1) ids) w).
  set (carry0 := tile_batch (map (fun row => (prefix_encoding self row).2.2) ids) w).
  destruct (cell_call_returns (cell self)
              (map (embedding_lookup1 (embedding self)) tokens) mem0 carry0)
    as [[outs [hs' crs']] Ecell].
  { unfold mem0. by rewrite tile_batch_length, !length_map. }
  { unfold carry0. by rewrite tile_batch_length, !length_map. }
  eexists _, _, (map (dense_apply (projection_layer self)) outs), hs', crs'.
  split; [reflexivity|]. split.
  - unfold get_logits_and_cache, getitem. rewrite Hcol. cbn.
    rewrite lookup_singleton_eq. cbn. rewrite Ecell. cbn.
    by rewrite insert_singleton_eq.
  - intros b row k t Hb Hk Ht. rewrite prefix_encoding_snoc.
    assert (Hm : mem0 !! (b * Z.to_nat w + k)%nat
                 = Some (prefix_encoding self row).2.1).
    { apply tile_batch_lookup; [|done]. by rewrite lookup_map, Hb. }
    assert (Hc : carry0 !! (b * Z.to_nat w + k)%nat
                 = Some (prefix_encoding self row).2.2).
    { apply tile_batch_lookup; [|done]. by rewrite lookup_map, Hb. }
    assert (Hx : map (embedding_lookup1 (embedding self)) tokens
                   !! (b * Z.to_nat w + k)%nat
                 = Some (embedding_lookup1 (embedding self) t))
      by (by rewrite lookup_map, Ht).
    rewrite cell_call_aligned in Ecell.
    2: { unfold mem0. by rewrite tile_batch_length, !length_map. }
    2: { unfold carry0. by rewrite tile_batch_length, !length_map. }
    destruct (cell_rows_lookup _ _ _ _ _ _ _ _ _ _ _ Ecell Hx Hm Hc)
      as (Ho & Hh & Hcr).
    destruct (prefix_encoding self row) as [o [h cr]]. cbn in *.
    rewrite lookup_map, Ho. done.
Qed.

End StepAndEncoder.

Lemma first_step_encodes_extended_prefix_witness :
  exists logits0 cache0 logits1 mem1 carry1,
    Model.get_initial_logits_and_cache_fn Toy.model [[5; 6]] = Ok (logits0, cache0) /\
    Model.get_logits_and_cache Toy.model [[0; 7]; [0; 8]] 1 cache0
      = Ok (logits1, {[ "last_state" := (mem1, carry1) ]}) /\
    forall b row k t,
      [[5; 6]] !! b = Some row ->
      (k < Z.to_nat (Model._beam_width Toy.model))%nat ->
      [7; 8] !! (b * Z.to_nat (Model._beam_width Toy.model) + k)%nat = Some t ->
      logits1 !! (b * Z.to_nat (Model._beam_width Toy.model) + k)%nat
        = Some (dense_apply (Model.projection_layer Toy.model)
                  (Model.prefix_encoding Toy.model (row ++ [t])).1) /\
      mem1 !! (b * Z.to_nat (Model._beam_width Toy.model) + k)%nat
        = Some (Model.prefix_encoding Toy.model (row ++ [t])).2.1 /\
      carry1 !! (b * Z.to_nat (Model._beam_width Toy.model) + k)%nat
        = Some (Model.prefix_encoding Toy.model (row ++ [t])).2.2.
Proof.
  apply (first_step_encodes_extended_prefix (C := Toy.collaborators) Toy.model
           [[5; 6]] [[0; 7]; [0; 8]] 1 [7; 8]).
  - repeat constructor. discriminate.
  - reflexivity.
  - reflexivity.
Defined.

(** ** The training entry point: entries, alignment and errors *)

Section TrainingEntries.
Context `{C : Collaborators}.
Import Model.

Lemma get_sorted_dict_id (d : FtrDict) : get_sorted_dict d = d.
Proof. apply map_eq. intros k. apply get_sorted_dict_lookup. Qed.

Lemma as_float3_Ok (v : value) (t : Tensor3) : as_float3 v = Ok t -> v = VFloat3 t.
Proof. destruct v; cbn; congruence. Qed.

Lemma as_int1_Ok (v : value) (t : list Z) : as_int1 v = Ok t -> v = VInt1 t.
Proof. destruct v; cbn; congruence. Qed.

Lemma as_int2_Ok (v : value) (t : Ids) : as_int2 v = Ok t -> v = VInt2 t.
Proof. destruct v; cbn; congruence. Qed.

(** Whenever [get_training_probs_and_labels] returns, the dictionary has
    exactly the five entries LABEL, LOGIT, LENGTH, RNN_OUTPUT and SAMPLE_ID;
    RNN_OUTPUT and SAMPLE_ID are what the decoder returned when run from the
    zero state on the embedded sentences with their full lengths, and LOGIT is
    that RNN_OUTPUT without its last time step. *)
Theorem training_output_entries (self : SmartComposeModel)
    (inputs : gmap string (list string)) (out : FtrDict) :
  get_training_probs_and_labels self inputs = Ok out ->
  dom out = {[ LABEL; LOGIT; LENGTH; RNN_OUTPUT; SAMPLE_ID ]} /\
  exists name sentences embedded_outputs embedded lens rnn_output sample_id,
    feature_type_2_name self !! TARGET_COLUMN_NAME = Some name /\
    inputs !! name = Some sentences /\
    _get_embedding_outputs_for_training self sentences = Ok embedded_outputs /\
    embedded_outputs !! EMBEDDED = Some (VFloat3 embedded) /\
    embedded_outputs !! LENGTH = Some (VInt1 lens) /\
    decoder_call (decoder self) embedded
      (map (fun _ => (lstm_zero_state (cell self)).1) embedded,
       map (fun _ => (lstm_zero_state (cell self)).2) embedded) lens
      = Ok (rnn_output, sample_id) /\
    out !! RNN_OUTPUT = Some (VFloat3 rnn_output) /\
    out !! SAMPLE_ID = Some (VInt2 sample_id) /\
    out !! LOGIT = Some (VFloat3 (map (@removelast Vec) rnn_output)).
Proof.
  unfold get_training_probs_and_labels. intros H.
  bind_inv H. rename a into name. apply getitem_Ok in Ha.
  bind_inv H. rename a into sentences. apply getitem_Ok in Ha0.
  bind_inv H. rename a into eo.
  bind_inv H. rename a into embedded. bind_inv Ha2.
  apply getitem_Ok in Ha3. apply as_float3_Ok in Ha2. subst a.
  bind_inv H. rename a into lens. bind_inv Ha2.
  apply getitem_Ok in Ha4. apply as_int1_Ok in Ha2. subst a.
  bind_inv H. destruct a as [rnn_output sample_id].
  bind_inv H. injection H as <-. rewrite get_sorted_dict_id. split.
  - rewrite !dom_insert_L, dom_empty_L. set_solver.
  - exists name, sentences, eo, embedded, lens, rnn_output, sample_id.
    repeat split; done.
Qed.

(** Labels and logits are aligned example by example: when the token ids and
    the decoder output of an example have the same number of time steps, the
    example has as many labels as logits, one fewer than it has tokens. When
    the embedding layer reports the example's number of tokens as its length,
    LENGTH is that number of labels for a non-empty example, and -1 (with no
    label and no logit) for an empty one. *)
Theorem training_labels_align_with_logits (self : SmartComposeModel)
    (inputs : gmap string (list string)) (name : string)
    (sentences : list string) (embedded_outputs : FtrDict)
    (embedded rnn_output : Tensor3) (lens : list Z) (ids sample_id : Ids) :
  feature_type_2_name self !! TARGET_COLUMN_NAME = Some name ->
  inputs !! name = Some sentences ->
  _get_embedding_outputs_for_training self sentences = Ok embedded_outputs ->
  embedded_outputs !! EMBEDDED = Some (VFloat3 embedded) ->
  embedded_outputs !! LENGTH = Some (VInt1 lens) ->
  embedded_outputs !! TOKENIZED_IDS = Some (VInt2 ids) ->
  decoder_call (decoder self) embedded (get_initial_state (cell self) embedded)
    lens = Ok (rnn_output, sample_id) ->
  Forall (fun l => 0 <= l < 2 ^ 31) lens ->
  exists out labels logits lengths,
    get_training_probs_and_labels self inputs = Ok out /\
    out !! LABEL = Some (VInt2 labels) /\
    out !! LOGIT = Some (VFloat3 logits) /\
    out !! LENGTH = Some (VInt1 lengths) /\
    length labels = length ids /\ length logits = length rnn_output /\
    length lengths = length lens /\
    forall b row steps, ids !! b = Some row -> rnn_output !! b = Some steps ->
      length row = length steps ->
      exists label_row logit_row,
        labels !! b = Some label_row /\ logits !! b = Some logit_row /\
        length label_row = length logit_row /\
        length label_row = (length row - 1)%nat /\
        (lens !! b = Some (Z.of_nat (length row)) ->
         (row ≠ [] -> lengths !! b = Some (Z.of_nat (length label_row))) /\
         (row = [] -> lengths !! b = Some (-1) /\ label_row = [] /\ logit_row = [])).
Proof.
  intros Hname Hin Hemb Hembedded Hlens Hids Hdec Hrange.
  unfold get_training_probs_and_labels.
  apply getitem_Ok in Hname, Hin, Hembedded, Hlens, Hids.
  rewrite Hname. cbn. rewrite Hin. cbn. rewrite Hemb. cbn.
  rewrite Hembedded. cbn. rewrite Hlens. cbn. rewrite Hdec. cbn.
  rewrite Hids. cbn. rewrite get_sorted_dict_id.
  rewrite (sub_one_int32_lengths _ Hrange).
  eexists _, (map (@tail Z) ids), (map (@removelast Vec) rnn_output),
    (map (fun l => l - 1) lens).
  split; [reflexivity|]. do 3 (split; [done|]).
  rewrite !length_map. do 3 (split; [done|]).
  intros b row steps Hb Hs Hlen.
  exists (tail row), (removelast steps).
  rewrite !lookup_map, Hb, Hs. do 2 (split; [done|]).
  rewrite length_removelast.
  assert (Htail : length (tail row) = (length row - 1)%nat)
    by (destruct row; cbn; lia).
  split; [lia|]. split; [done|].
  intros Hl. rewrite Hl. cbn. split.
  - intros Hne. f_equal. destruct row; [done|]. cbn. lia.
  - intros ->. destruct steps; [done | discriminate].
Qed.

(** Which exception a missing entry gives: without the feature name or the
    target column the call raises [KeyError] whatever the embedding layer
    would do; an exception of the embedding layer or of the decoder is passed
    on; an embedding result without EMBEDDED or LENGTH is a [KeyError] before
    the decoder runs, and one without TOKENIZED_IDS a [KeyError] after it. *)
Theorem training_missing_entries_raise (self : SmartComposeModel)
    (inputs : gmap string (list string)) :
  (feature_type_2_name self !! TARGET_COLUMN_NAME = None ->
   get_training_probs_and_labels self inputs = Raise KeyError) /\
  (forall name, feature_type_2_name self !! TARGET_COLUMN_NAME = Some name ->
   (inputs !! name = None ->
    get_training_probs_and_labels self inputs = Raise KeyError) /\
   (forall sentences, inputs !! name = Some sentences ->
    (forall e, _get_embedding_outputs_for_training self sentences = Raise e ->
       get_training_probs_and_labels self inputs = Raise e) /\
    (forall eo, _get_embedding_outputs_for_training self sentences = Ok eo ->
       (eo !! EMBEDDED = None ->
        get_training_probs_and_labels self inputs = Raise KeyError) /\
       (forall embedded, eo !! EMBEDDED = Some (VFloat3 embedded) ->
          (eo !! LENGTH = None ->
           get_training_probs_and_labels self inputs = Raise KeyError) /\
          (forall lens, eo !! LENGTH = Some (VInt1 lens) ->
             (forall e, decoder_call (decoder self) embedded
                          (get_initial_state (cell self) embedded) lens = Raise e ->
                get_training_probs_and_labels self inputs = Raise e) /\
             (forall r, decoder_call (decoder self) embedded
                          (get_initial_state (cell self) embedded) lens = Ok r ->
                eo !! TOKENIZED_IDS = None ->
                get_training_probs_and_labels self inputs = Raise KeyError)))))).
Proof.
  unfold get_training_probs_and_labels, getitem. split.
  - intros ->. done.
  - intros name ->. cbn. split; [intros ->; done|].
    intros sentences ->. cbn. split; [intros e ->; done|].
    intros eo ->. cbn. split; [intros ->; done|].
    intros embedded ->. cbn. split; [intros ->; done|].
    intros lens ->. cbn. split; [intros e ->; done|].
    intros [rnn sample] -> ->. done.
Qed.

(** Training does not read the inference configuration: two models
    constructed from the same embedding parameters, lengths and feature names
    return the same training dictionary, whatever their beam width, maximum
    decode length, minimum sequence probability and length-normalisation
    power. *)
Theorem training_ignores_inference_configuration
    (p : EmbeddingParam) (url : string) (min_len max_len : Z)
    (names : gmap string string)
    (beam_width beam_width' max_decode_length max_decode_length' : Z)
    (min_seq_prob min_seq_prob' length_norm_power length_norm_power' : Q)
    (self self' : SmartComposeModel) (inputs : gmap string (list string)) :
  __init__ p url min_len max_len beam_width max_decode_length names
    min_seq_prob length_norm_power = Ok self ->
  __init__ p url min_len max_len beam_width' max_decode_length' names
    min_seq_prob' length_norm_power' = Ok self' ->
  get_training_probs_and_labels self inputs
  = get_training_probs_and_labels self' inputs.
Proof.
  unfold __init__, PrefixAwareBeamSearcher_new. intros H H'.
  destruct (create_embedding_layer p url) as [e|]; cbn in *; [|discriminate].
  destruct (searcher_check _) as [[]|] in H; cbn in H; [|discriminate].
  destruct (searcher_check _) as [[]|] in H'; cbn in H'; [|discriminate].
  injection H as <-. injection H' as <-. reflexivity.
Qed.

End TrainingEntries.

(** ** Construction and the factory function *)

Section ConstructionFacts.
Context `{C : Collaborators}.
Import Model.

(** Construction raises exactly what a collaborator raises: the exception of
    [create_embedding_layer], or else the exception of the beam searcher's
    constructor on the arguments [__init__] hands it (the embedding's
    vocabulary size and separator/pad ids, the caller's beam settings, the
    minimum length 1, [max_len], one CLS and no separator). *)
Theorem construction_raises_what_a_collaborator_raises
    (p : EmbeddingParam) (url : string)
    (min_len max_len beam_width max_decode_length : Z)
    (names : gmap string string) (min_seq_prob length_norm_power : Q) (e : exn) :
  __init__ p url min_len max_len beam_width max_decode_length names
    min_seq_prob length_norm_power = Raise e <->
  create_embedding_layer p url = Raise e \/
  exists emb,
    create_embedding_layer p url = Ok emb /\
    searcher_check
      {| bs_vocab_size := vocab_size emb; bs_beam_width := beam_width;
         bs_length_norm_power := length_norm_power;
         bs_max_decode_length := max_decode_length;
         bs_sep_id := sep_id emb; bs_pad_id := pad_id emb;
         bs_min_seq_prob := min_seq_prob; bs_embedding := emb;
         bs_min_len := 1; bs_max_len := max_len;
         bs_num_cls := 1; bs_num_sep := 0 |} = Raise e.
Proof.
  unfold __init__, PrefixAwareBeamSearcher_new.
  destruct (create_embedding_layer p url) as [emb|e0]; cbn.
  - destruct (searcher_check _) as [[]|e1] eqn:Echeck; cbn.
    + split; [done|]. intros [H|(emb' & [= <-] & H)]; [done|]. congruence.
    + split.
      * intros [= <-]. right. by exists emb.
      * intros [H|(emb' & [= <-] & H)]; [done|]. congruence.
  - split; [intros [= <-]; by left|].
    intros [[= <-]|(emb & H & _)]; done.
Qed.

(** A constructed model is consistent: the training decoder is built on the
    very cell and projection layer the inference closures use, both sized by
    the embedding layer; the beam searcher holds the model's embedding, its
    vocabulary size and special ids, the caller's beam settings and the
    model's maximum length; it passed its constructor check; and the training
    and inference maximum lengths are both [max_len]. *)
Theorem constructed_model_is_consistent (p : EmbeddingParam) (url : string)
    (min_len max_len beam_width max_decode_length : Z)
    (names : gmap string string) (min_seq_prob length_norm_power : Q)
    (self : SmartComposeModel) :
  __init__ p url min_len max_len beam_width max_decode_length names
    min_seq_prob length_norm_power = Ok self ->
  create_embedding_layer p url = Ok (embedding self) /\
  cell self = LSTMCell_new (num_units (embedding self)) /\
  projection_layer self = Dense_new (vocab_size (embedding self)) /\
  decoder self = BasicDecoder_new (cell self) (projection_layer self) /\
  searcher_check (prefix_aware_beam_searcher self) = Ok tt /\
  bs_embedding (prefix_aware_beam_searcher self) = embedding self /\
  bs_vocab_size (prefix_aware_beam_searcher self) = vocab_size (embedding self) /\
  bs_sep_id (prefix_aware_beam_searcher self) = sep_id (embedding self) /\
  bs_pad_id (prefix_aware_beam_searcher self) = pad_id (embedding self) /\
  bs_beam_width (prefix_aware_beam_searcher self) = _beam_width self /\
  _beam_width self = beam_width /\
  bs_max_decode_length (prefix_aware_beam_searcher self) = max_decode_length /\
  bs_max_len (prefix_aware_beam_searcher self) = max_len /\
  _inference_max_len self = max_len /\ _training_max_len self = max_len /\
  feature_type_2_name self = names.
Proof.
  unfold __init__, PrefixAwareBeamSearcher_new. intros H.
  destruct (create_embedding_layer p url) as [emb|]; cbn in *; [|discriminate].
  destruct (searcher_check _) as [[]|] eqn:Echeck; cbn in *; [|discriminate].
  injection H as <-. cbn. repeat split; done.
Qed.

(** What the embedding layer is asked in training by a constructed model:
    exactly the five entries SENTENCES, NUM_CLS = 1, NUM_SEP = 1, MIN_LEN =
    the caller's [min_len] and MAX_LEN = the caller's [max_len]. *)
Theorem training_request_of_constructed_model (p : EmbeddingParam) (url : string)
    (min_len max_len beam_width max_decode_length : Z)
    (names : gmap string string) (min_seq_prob length_norm_power : Q)
    (self : SmartComposeModel) (sentences : list string) :
  __init__ p url min_len max_len beam_width max_decode_length names
    min_seq_prob length_norm_power = Ok self ->
  _get_embedding_outputs_for_training self sentences
  = embedding_call (embedding self)
      (<[MAX_LEN := VInt max_len]>
      (<[MIN_LEN := VInt min_len]>
      (<[NUM_SEP := VInt 1]>
      (<[NUM_CLS := VInt 1]>
      (<[SENTENCES := VString1 sentences]> ∅))))) /\
  dom (get_sorted_dict (training_request self sentences))
  = {[ SENTENCES; NUM_CLS; NUM_SEP; MIN_LEN; MAX_LEN ]}.
Proof.
  unfold __init__, PrefixAwareBeamSearcher_new. intros H.
  destruct (create_embedding_layer p url) as [emb|]; cbn in *; [|discriminate].
  destruct (searcher_check _) as [[]|]; cbn in *; [|discriminate].
  injection H as <-.
  unfold _get_embedding_outputs_for_training, training_request. cbn.
  assert (Hid : forall d, get_sorted_dict d = d)
    by (intros d; apply map_eq; intros k; apply get_sorted_dict_lookup).
  rewrite !Hid. split; [done|].
  rewrite !dom_insert_L, dom_empty_L. set_solver.
Qed.

End ConstructionFacts.

Section FactoryFacts.
Context `{C : Collaborators}.
Variable keras_Input : list string.
Import Model ModelFactory.

Lemma constructed_feature_names (p : EmbeddingParam) (url : string)
    (min_len max_len beam_width max_decode_length : Z)
    (names : gmap string string) (min_seq_prob length_norm_power : Q)
    (self : SmartComposeModel) :
  __init__ p url min_len max_len beam_width max_decode_length names
    min_seq_prob length_norm_power = Ok self ->
  feature_type_2_name self = names.
Proof.
  unfold __init__, PrefixAwareBeamSearcher_new. intros H.
  destruct (create_embedding_layer p url) as [emb|]; cbn in *; [|discriminate].
  destruct (searcher_check _) as [[]|]; cbn in *; [|discriminate].
  by injection H as <-.
Qed.

(** [create_smart_compose_model] returns a model exactly when the feature
    names hold the target column, construction returns that model, and the
    beam searcher returns on the symbolic input; the target-column lookups of
    the build call cannot fail. A missing target column name is a [KeyError]
    before anything is constructed, and an exception of construction is
    passed on. *)
Theorem create_smart_compose_model_returns (p : EmbeddingParam) (url : string)
    (min_len max_len beam_width max_decode_length : Z)
    (names : gmap string string) (min_seq_prob length_norm_power : Q) :
  (forall self,
     create_smart_compose_model keras_Input p url min_len max_len beam_width
       max_decode_length names min_seq_prob length_norm_power = Ok self <->
     is_Some (names !! TARGET_COLUMN_NAME) /\
     __init__ p url min_len max_len beam_width max_decode_length names
       min_seq_prob length_norm_power = Ok self /\
     is_Ok (searcher_call (prefix_aware_beam_searcher self) keras_Input
              (get_logits_and_cache self)
              (get_initial_logits_and_cache_fn self))) /\
  (names !! TARGET_COLUMN_NAME = None ->
   create_smart_compose_model keras_Input p url min_len max_len beam_width
     max_decode_length names min_seq_prob length_norm_power = Raise KeyError) /\
  (forall e, is_Some (names !! TARGET_COLUMN_NAME) ->
     __init__ p url min_len max_len beam_width max_decode_length names
       min_seq_prob length_norm_power = Raise e ->
     create_smart_compose_model keras_Input p url min_len max_len beam_width
       max_decode_length names min_seq_prob length_norm_power = Raise e).
Proof.
  unfold create_smart_compose_model, getitem.
  destruct (names !! TARGET_COLUMN_NAME) as [name|] eqn:Ename; cbn.
  - destruct (__init__ p url min_len max_len beam_width max_decode_length names
                min_seq_prob length_norm_power) as [m|e0] eqn:Einit; cbn.
    + pose proof (constructed_feature_names _ _ _ _ _ _ _ _ _ _ Einit)
        as Hnames.
      unfold call, prefix_aware_beam_search, getitem.
      rewrite Hnames, Ename. cbn. rewrite lookup_singleton_eq. cbn.
      split; [|split; [done|]].
      * intros self. destruct (searcher_call _ _ _ _) as [r|e1] eqn:Ecall; cbn.
        -- split.
           ++ intros [= <-]. rewrite Ecall. done.
           ++ intros (_ & [= <-] & _). done.
        -- split; [done|]. intros (_ & [= <-] & H). by rewrite Ecall in H.
      * intros e _ [=].
    + split; [|split; [done|]].
      * intros self. split; [done|]. intros (_ & [=] & _).
      * intros e _ [= <-]. done.
  - split; [|split; [done|]].
    + intros self. split; [done|]. intros ([x [=]] & _).
    + intros e [x [=]].
Qed.

End FactoryFacts.

(** ** The decode-loop invariant of the cache *)

Section EncodingInvariant.
Context `{C : Collaborators}.
Import Model Encoding.

(** [get_logits_and_cache] keeps the cache an encoding of token sequences: if
    row [j] of the state in the cache is the state the cell reaches after
    reading sequence [s_j], then the call returns, row [j] of the new state is
    the state after [s_j] followed by the token in column [i] of row [j], and
    row [j] of the logits is the output projection of the cell output at that
    last token. *)
Theorem step_keeps_encoding (self : SmartComposeModel) (seqs : list (list Z))
    (ids : Ids) (i : nat) (cache : Cache) (st : Tensor2 * Tensor2)
    (tokens : list Z) :
  cache !! "last_state" = Some st ->
  encodes self seqs st ->
  column i ids = Ok tokens ->
  length ids = length seqs ->
  exists logits cache' st',
    get_logits_and_cache self ids i cache = Ok (logits, cache') /\
    cache' !! "last_state" = Some st' /\
    encodes self (zip_with (fun s t => s ++ [t]) seqs tokens) st' /\
    length logits = length seqs /\
    forall j s t, seqs !! j = Some s -> tokens !! j = Some t ->
      logits !! j
      = Some (dense_apply (projection_layer self)
                (prefix_encoding self (s ++ [t])).1).
Proof.
  intros Hst (Hl1 & Hl2 & Henc) Hcol Hlen.
  pose proof (column_length _ _ _ Hcol) as Htok.
  destruct (cell_call_returns (cell self)
              (map (embedding_lookup1 (embedding self)) tokens) st.1 st.2)
    as [[outs [hs' crs']] Ecell]; rewrite ?length_map; [congruence..|].
  exists (map (dense_apply (projection_layer self)) outs),
    (<["last_state" := (hs', crs')]> cache), (hs', crs').
  pose proof Ecell as Erows.
  rewrite cell_call_aligned in Erows by (rewrite ?length_map; congruence).
  pose proof (cell_rows_length _ _ _ _ _ _ _ Erows) as (_ & _ & Ho & Hh & Hc).
  rewrite length_map in Ho, Hh, Hc.
  assert (Hstep : forall j s t, seqs !! j = Some s -> tokens !! j = Some t ->
            outs !! j = Some (prefix_encoding self (s ++ [t])).1 /\
            hs' !! j = Some (prefix_encoding self (s ++ [t])).2.1 /\
            crs' !! j = Some (prefix_encoding self (s ++ [t])).2.2).
  { intros j s t Hs Ht. rewrite prefix_encoding_snoc.
    destruct (Henc j s Hs) as [Hm Hcr].
    assert (Hx : map (embedding_lookup1 (embedding self)) tokens !! j
                 = Some (embedding_lookup1 (embedding self) t))
      by (by rewrite lookup_map, Ht).
    pose proof (cell_rows_lookup _ _ _ _ _ _ _ _ _ _ _ Erows Hx Hm Hcr) as H.
    destruct (prefix_encoding self s) as [o [h cr]]. exact H. }
  split; [|split; [|split; [|split]]].
  - unfold get_logits_and_cache, getitem. rewrite Hcol. cbn.
    rewrite Hst. cbn. rewrite Ecell. done.
  - apply lookup_insert_eq.
  - unfold encodes. cbn [fst snd].
    rewrite length_zip_with. split; [lia|]. split; [lia|].
    intros j s' Hs'. apply lookup_zip_with_Some in Hs' as (s & t & -> & Hs & Ht).
    destruct (Hstep j s t Hs Ht) as (_ & Hh' & Hc'). done.
  - rewrite length_map. congruence.
  - intros j s t Hs Ht. destruct (Hstep j s t Hs Ht) as (Ho' & _).
    by rewrite lookup_map, Ho'.
Qed.

End EncodingInvariant.

(** ** The further properties on concrete inputs *)

Example factory_builds_the_toy_model :
  ModelFactory.create_smart_compose_model (C := Toy.collaborators) ["a"]%string
    200 "hub" 3 16 2 4 {[ "target" := "text" ]} 0%Q 1%Q = Ok Toy.model.
Proof. vm_compute. reflexivity. Qed.

Example factory_without_target_column :
  ModelFactory.create_smart_compose_model (C := Toy.collaborators) ["a"]%string
    200 "hub" 3 16 0 4 {[ "label" := "text" ]} 0%Q 1%Q = Raise KeyError.
Proof. reflexivity. Qed.

Example factory_with_invalid_beam_width :
  ModelFactory.create_smart_compose_model (C := Toy.collaborators) ["a"]%string
    200 "hub" 3 16 0 4 {[ "target" := "text" ]} 0%Q 1%Q = Raise ValueError.
Proof. reflexivity. Qed.

Example step_without_column_and_state :
  Model.get_logits_and_cache Toy.model [[5; 6]; [7; 8]] 2 ∅
  = Raise InvalidArgumentError.
Proof. reflexivity. Qed.

(** One row of [ids] is broadcast against the two rows of the state. *)
Example step_with_one_row_of_ids :
  Model.get_logits_and_cache Toy.model [[5; 6]] 1 Toy.cache0
  = Ok ([[7; 4; 11]; [10; 5; 15]]%Q,
        <["last_state" := ([[7; 4]; [10; 5]], [[6; 2]; [7; 1]])%Q]> Toy.cache0).
Proof. vm_compute. reflexivity. Qed.

Lemma step_keeps_encoding_witness :
  exists logits cache' st',
    Model.get_logits_and_cache Toy.model [[0; 8]; [0; 9]] 1
      {[ "last_state" := ([[5; 1]; [19; 3]], [[5; 1]; [13; 2]])%Q ]}
      = Ok (logits, cache') /\
    cache' !! "last_state" = Some st' /\
    Encoding.encodes Toy.model
      (zip_with (fun s t => s ++ [t]) [[5]; [6; 7]] [8; 9]) st' /\
    length logits = length [[5]; [6; 7]] /\
    forall j s t, [[5]; [6; 7]] !! j = Some s -> [8; 9] !! j = Some t ->
      logits !! j
      = Some (dense_apply (Model.projection_layer Toy.model)
                (Model.prefix_encoding Toy.model (s ++ [t])).1).
Proof.
  apply (step_keeps_encoding (C := Toy.collaborators) Toy.model [[5]; [6; 7]]
           [[0; 8]; [0; 9]] 1 _ ([[5; 1]; [19; 3]], [[5; 1]; [13; 2]])%Q [8; 9]).
  - reflexivity.
  - split; [reflexivity|]. split; [reflexivity|].
    intros [|[|j]] s H; cbn in H; [| |discriminate];
      injection H as <-; split; vm_compute; reflexivity.
  - reflexivity.
  - reflexivity.
Defined.

Lemma training_output_entries_witness :
  exists out,
    Model.get_training_probs_and_labels Toy.model
      {[ "text" := ["abc"; "de"]%string ]} = Ok out /\
    dom out = {[ LABEL; LOGIT; LENGTH; RNN_OUTPUT; SAMPLE_ID ]} /\
    exists name sentences embedded_outputs embedded lens rnn_output sample_id,
      Model.feature_type_2_name Toy.model
        !! TARGET_COLUMN_NAME (Collaborators := Toy.collaborators) = Some name /\
      ({[ "text" := ["abc"; "de"]%string ]} : gmap string (list string)) !! name
        = Some sentences /\
      Model._get_embedding_outputs_for_training Toy.model sentences
        = Ok embedded_outputs /\
      embedded_outputs !! EMBEDDED = Some (VFloat3 embedded) /\
      embedded_outputs !! LENGTH = Some (VInt1 lens) /\
      decoder_call (Collaborators := Toy.collaborators)
        (Model.decoder Toy.model) embedded
        (map (fun _ => (lstm_zero_state (Collaborators := Toy.collaborators)
                          (Model.cell Toy.model)).1) embedded,
         map (fun _ => (lstm_zero_state (Collaborators := Toy.collaborators)
                          (Model.cell Toy.model)).2) embedded) lens
        = Ok (rnn_output, sample_id) /\
      out !! RNN_OUTPUT = Some (VFloat3 rnn_output) /\
      out !! SAMPLE_ID = Some (VInt2 sample_id) /\
      out !! LOGIT = Some (VFloat3 (map (@removelast Vec) rnn_output)).
Proof.
  eexists. split; [vm_compute; reflexivity|].
  apply (training_output_entries (C := Toy.collaborators) Toy.model
           {[ "text" := ["abc"; "de"]%string ]}).
  vm_compute. reflexivity.
Defined.

Lemma training_ignores_inference_configuration_witness :
  exists self',
    Model.__init__ (C := Toy.collaborators) 200 "hub" 3 16 5 9
      {[ "target" := "text" ]} (1 # 2)%Q 0%Q = Ok self' /\
    Model.get_training_probs_and_labels Toy.model
      {[ "text" := ["abc"; "de"]%string ]}
    = Model.get_training_probs_and_labels self'
        {[ "text" := ["abc"; "de"]%string ]}.
Proof.
  eexists. split; [reflexivity|].
  apply (training_ignores_inference_configuration (C := Toy.collaborators)
           200 "hub" 3 16 {[ "target" := "text" ]} 2 5 4 9 0%Q (1 # 2)%Q 1%Q 0%Q);
    reflexivity.
Defined.

Lemma constructed_model_is_consistent_witness :
  create_embedding_layer (Collaborators := Toy.collaborators) 200 "hub"
    = Ok (Model.embedding Toy.model) /\
  Model.cell Toy.model
    = LSTMCell_new (Collaborators := Toy.collaborators)
        (num_units (Model.embedding Toy.model)) /\
  Model.projection_layer Toy.model
    = Dense_new (Collaborators := Toy.collaborators)
        (vocab_size (Model.embedding Toy.model)) /\
  Model.decoder Toy.model
    = BasicDecoder_new (Collaborators := Toy.collaborators)
        (Model.cell Toy.model) (Model.projection_layer Toy.model) /\
  searcher_check (Collaborators := Toy.collaborators)
    (Model.prefix_aware_beam_searcher Toy.model) = Ok tt /\
  bs_embedding (Model.prefix_aware_beam_searcher Toy.model)
    = Model.embedding Toy.model /\
  bs_vocab_size (Model.prefix_aware_beam_searcher Toy.model)
    = vocab_size (Collaborators := Toy.collaborators) (Model.embedding Toy.model) /\
  bs_sep_id (Model.prefix_aware_beam_searcher Toy.model)
    = sep_id (Collaborators := Toy.collaborators) (Model.embedding Toy.model) /\
  bs_pad_id (Model.prefix_aware_beam_searcher Toy.model)
    = pad_id (Collaborators := Toy.collaborators) (Model.embedding Toy.model) /\
  bs_beam_width (Model.prefix_aware_beam_searcher Toy.model)
    = Model._beam_width Toy.model /\
  Model._beam_width Toy.model = 2 /\
  bs_max_decode_length (Model.prefix_aware_beam_searcher Toy.model) = 4 /\
  bs_max_len (Model.prefix_aware_beam_searcher Toy.model) = 16 /\
  Model._inference_max_len Toy.model = 16 /\
  Model._training_max_len Toy.model = 16 /\
  Model.feature_type_2_name Toy.model = {[ "target" := "text" ]}.
Proof.
  apply (constructed_model_is_consistent (C := Toy.collaborators)
           200 "hub" 3 16 2 4 {[ "target" := "text" ]} 0%Q 1%Q Toy.model).
  reflexivity.
Defined.

Lemma training_request_of_constructed_model_witness :
  Model._get_embedding_outputs_for_training Toy.model ["abc"]%string
  = embedding_call (Collaborators := Toy.collaborators)
      (Model.embedding Toy.model)
      (<[MAX_LEN := VInt 16]>
      (<[MIN_LEN := VInt 3]>
      (<[NUM_SEP := VInt 1]>
      (<[NUM_CLS := VInt 1]>
      (<[SENTENCES := VString1 ["abc"]%string]> ∅))))) /\
  dom (get_sorted_dict (Collaborators := Toy.collaborators)
         (Model.training_request Toy.model ["abc"]%string))
  = {[ SENTENCES; NUM_CLS; NUM_SEP; MIN_LEN; MAX_LEN ]}.
Proof.
  apply (training_request_of_constructed_model (C := Toy.collaborators)
           200 "hub" 3 16 2 4 {[ "target" := "text" ]} 0%Q 1%Q Toy.model).
  reflexivity.
Defined.

Lemma training_labels_align_with_logits_witness :
  exists out labels logits lengths,
    Model.get_training_probs_and_labels Toy.model
      {[ "text" := ["abc"; "de"]%string ]} = Ok out /\
    out !! LABEL = Some (VInt2 labels) /\
    out !! LOGIT = Some (VFloat3 logits) /\
    out !! LENGTH = Some (VInt1 lengths) /\
    length labels = length [[97; 98; 99]; [100; 101]] /\
    length logits
      = length [[[97; 1; 98]; [98; 1; 99]; [99; 1; 100]];
                [[100; 1; 101]; [101; 1; 102]]]%Q /\
    length lengths = length [3; 2] /\
    forall b row steps,
      [[97; 98; 99]; [100; 101]] !! b = Some row ->
      [[[97; 1; 98]; [98; 1; 99]; [99; 1; 100]];
       [[100; 1; 101]; [101; 1; 102]]]%Q !! b = Some steps ->
      length row = length steps ->
      exists label_row logit_row,
        labels !! b = Some label_row /\ logits !! b = Some logit_row /\
        length label_row = length logit_row /\
        length label_row = (length row - 1)%nat /\
        ([3; 2] !! b = Some (Z.of_nat (length row)) ->
         (row ≠ [] -> lengths !! b = Some (Z.of_nat (length label_row))) /\
         (row = [] ->
          lengths !! b = Some (-1) /\ label_row = [] /\ logit_row = [])).
Proof.
  apply (training_labels_align_with_logits (C := Toy.collaborators) Toy.model
           {[ "text" := ["abc"; "de"]%string ]} "text" ["abc"; "de"]%string
           (<[TOKENIZED_IDS := VInt2 [[97; 98; 99]; [100; 101]]]>
           (<[LENGTH := VInt1 [3; 2]]>
           (<[EMBEDDED := VFloat3 [[[97; 1]; [98; 1]; [99; 1]];
                                   [[100; 1]; [101; 1]]]%Q]> ∅)))
           [[[97; 1]; [98; 1]; [99; 1]]; [[100; 1]; [101; 1]]]%Q
           _ [3; 2] _ [[0; 0; 0]; [0; 0]]).
  - reflexivity.
  - reflexivity.
  - vm_compute. reflexivity.
  - reflexivity.
  - reflexivity.
  - reflexivity.
  - vm_compute. reflexivity.
  - repeat constructor; lia.
Defined.

(** ** Batches of the encoder *)

Section EncoderBatches.
Context `{C : Collaborators}.
Import Model.

Lemma tile_batch_app {A} (t1 t2 : list A) (n : Z) :
  tile_batch (t1 ++ t2) n = tile_batch t1 n ++ tile_batch t2 n.
Proof. unfold tile_batch. apply flat_map_app. Qed.

(** The encoder treats the examples of a batch one by one and keeps their
    order: the logits and the [memory, carry] state of a concatenated batch
    are those of the two batches, one after the other. *)
Theorem initial_batches_concatenate (self : SmartComposeModel) (ids1 ids2 : Ids) :
  Forall (fun row => row ≠ []) ids1 ->
  Forall (fun row => row ≠ []) ids2 ->
  exists logits1 mem1 carry1 logits2 mem2 carry2,
    get_initial_logits_and_cache_fn self ids1
      = Ok (logits1, {[ "last_state" := (mem1, carry1) ]}) /\
    get_initial_logits_and_cache_fn self ids2
      = Ok (logits2, {[ "last_state" := (mem2, carry2) ]}) /\
    get_initial_logits_and_cache_fn self (ids1 ++ ids2)
      = Ok (logits1 ++ logits2,
            {[ "last_state" := (mem1 ++ mem2, carry1 ++ carry2) ]}).
Proof.
  intros H1 H2.
  assert (H12 : Forall (fun row : list Z => row ≠ []) (ids1 ++ ids2))
    by (by apply Forall_app).
  rewrite (get_initial_explicit self ids1 H1),
    (get_initial_explicit self ids2 H2),
    (get_initial_explicit self (ids1 ++ ids2) H12).
  do 6 eexists. split; [reflexivity|]. split; [reflexivity|].
  by rewrite !map_app, !tile_batch_app.
Qed.

End EncoderBatches.

Lemma initial_batches_concatenate_witness :
  exists logits1 mem1 carry1 logits2 mem2 carry2,
    Model.get_initial_logits_and_cache_fn Toy.model [[5; 6; 7]]
      = Ok (logits1, {[ "last_state" := (mem1, carry1) ]}) /\
    Model.get_initial_logits_and_cache_fn Toy.model [[8]; [9; 1]]
      = Ok (logits2, {[ "last_state" := (mem2, carry2) ]}) /\
    Model.get_initial_logits_and_cache_fn Toy.model ([[5; 6; 7]] ++ [[8]; [9; 1]])
      = Ok (logits1 ++ logits2,
            {[ "last_state" := (mem1 ++ mem2, carry1 ++ carry2) ]}).
Proof.
  apply (initial_batches_concatenate (C := Toy.collaborators) Toy.model
           [[5; 6; 7]] [[8]; [9; 1]]);
    repeat constructor; discriminate.
Defined.
